(** * M4rk-IDE: the session layer of [src/pages/Index.tsx]

    [IDEContent] wires the toolbar callbacks ([handleSave],
    [handleNewProject], [handleOpenProject], [handleImportProject]), the
    delayed workspace check and the auto-save interval to the operations
    that [useIDE()] hands out.  The component is embedded as handlers in a
    state-and-exception monad over a [World]; the React effects are the
    timers of that world.  The context behind [useIDE()] is an interface
    (a type class); its one instance here follows the written design of the
    session orchestrator. *)

From stdpp Require Import base strings gmap list.
From Stdlib Require Import ZArith Lia.

Local Open Scope Z_scope.

(** ** Data model *)

(** Modelled from the spec: the Project type is declared with the IDE
    context, which is not among the sources.  The persisted record is
    [{ id, name, workspaceDocument, generatedSource, board }]; the
    component reads [name] and [blocklyXml], its name for the workspace
    document, off [currentProject]. *)
Record Project := mkProject {
  id : string;
  name : string;
  blocklyXml : string;
  generatedSource : string;
  board : string
}.

Definition workspaceDocument (p : Project) : string := blocklyXml p.

Global Instance Project_eq_dec : EqDecision Project.
Proof. solve_decision. Defined.

(** Modelled from the spec: a console message has a severity level,
    info or error, and a text.  The component sends ['info']. *)
Inductive ConsoleLevel := info | error.

Global Instance ConsoleLevel_eq_dec : EqDecision ConsoleLevel.
Proof. solve_decision. Defined.

Record ConsoleMessage := mkMessage {
  level : ConsoleLevel;
  text : string
}.

Global Instance ConsoleMessage_eq_dec : EqDecision ConsoleMessage.
Proof. solve_decision. Defined.

(** Modelled from the spec: what a rejected promise carries.  NotFound is
    the one failure the design lets out of the orchestrator. *)
Inductive IDEError := NotFound (missing : string).

(** A settled [Promise<void>]. *)
Inductive Settled := Fulfilled | Rejected (e : IDEError).

(** JavaScript truthiness of a string: every string but the empty one. *)
Definition truthy (s : string) : bool :=
  if decide (s = "") then false else true.

(** [a || b] on strings. *)
Definition js_or (a b : string) : string :=
  if truthy a then a else b.

(** ** The interface returned by [useIDE()]

    Only the members [IDEContent] calls in its handlers and effects.  An
    asynchronous member returns how its promise settled together with the
    context state it left behind. *)
Class IDEContextType (Ctx : Type) := {
  currentProject : Ctx → option Project;
  generatedCode : Ctx → string;
  saveProject : string → string → Ctx → Settled * Ctx;
  createNewProject : string → string → string → Ctx → Settled * Ctx;
  openProject : string → Ctx → Settled * Ctx;
  importProject : string → string → string → Ctx → Settled * Ctx;
  addConsoleMessage : ConsoleLevel → string → Ctx → Ctx
}.

(** The calls a handler makes on the context, in order. *)
Inductive Call :=
| CallSaveProject (xml code : string)
| CallCreateNewProject (name xml code : string)
| CallOpenProject (id : string)
| CallImportProject (xml name board : string)
| CallAddConsoleMessage (lvl : ConsoleLevel) (msg : string).

Global Instance Call_eq_dec : EqDecision Call.
Proof. solve_decision. Defined.

(** ** Blockly, as the component sees it

    A [WorkspaceSvg] is an object; the model keeps its identity.  The
    environment says whether [document.querySelector('.blockly-container')]
    finds an element, what [Blockly.getMainWorkspace()] returns, and, for
    every workspace object, the text that
    [Blockly.Xml.domToText(Blockly.Xml.workspaceToDom(ws))] yields for the
    blocks it holds now. *)
Definition WorkspaceSvg := nat.

Record BlocklyEnv := mkBlockly {
  container : bool;
  mainWorkspace : option WorkspaceSvg;
  workspaceText : WorkspaceSvg → string
}.

(** ** The component's world *)

Record World (Ctx : Type) := mkWorld {
  ide : Ctx;                          (* the context state behind useIDE() *)
  blocklyKey : Z;                     (* useState(0) *)
  workspaceRef : option WorkspaceSvg; (* useRef(null).current *)
  blockly : BlocklyEnv;
  now : Z;                            (* milliseconds *)
  checkTimer : option Z;              (* due time of setTimeout(checkWorkspace, 500) *)
  autoSaveDue : Z;                    (* next firing of setInterval(..., 30000) *)
  calls : list Call
}.

Arguments mkWorld {Ctx}.
Arguments ide {Ctx}.
Arguments blocklyKey {Ctx}.
Arguments workspaceRef {Ctx}.
Arguments blockly {Ctx}.
Arguments now {Ctx}.
Arguments checkTimer {Ctx}.
Arguments autoSaveDue {Ctx}.
Arguments calls {Ctx}.

(** How a handler body ends: normally, or with the rejection of an awaited
    promise. *)
Inductive Completion (A : Type) :=
| Normal (a : A)
| Throw (e : IDEError).

Arguments Normal {A}.
Arguments Throw {A}.

Definition Handler (Ctx A : Type) : Type := World Ctx → Completion A * World Ctx.

Global Instance Handler_ret Ctx : MRet (Handler Ctx) :=
  λ A a w, (Normal a, w).

Global Instance Handler_bind Ctx : MBind (Handler Ctx) :=
  λ A B k m w,
    match m w with
    | (Normal a, w') => k a w'
    | (Throw e, w') => (Throw e, w')
    end.

Definition CHECK_DELAY : Z := 500.
Definition AUTO_SAVE_INTERVAL : Z := 30000.

Section Component.
Context {Ctx : Type} `{IDEContextType Ctx}.

Definition set_ide (c : Ctx) (w : World Ctx) : World Ctx :=
  mkWorld c (blocklyKey w) (workspaceRef w) (blockly w) (now w)
          (checkTimer w) (autoSaveDue w) (calls w).

Definition set_blocklyKey (k : Z) (w : World Ctx) : World Ctx :=
  mkWorld (ide w) k (workspaceRef w) (blockly w) (now w)
          (checkTimer w) (autoSaveDue w) (calls w).

Definition set_workspaceRef (r : option WorkspaceSvg) (w : World Ctx) : World Ctx :=
  mkWorld (ide w) (blocklyKey w) r (blockly w) (now w)
          (checkTimer w) (autoSaveDue w) (calls w).

Definition set_blockly (b : BlocklyEnv) (w : World Ctx) : World Ctx :=
  mkWorld (ide w) (blocklyKey w) (workspaceRef w) b (now w)
          (checkTimer w) (autoSaveDue w) (calls w).

Definition set_now (t : Z) (w : World Ctx) : World Ctx :=
  mkWorld (ide w) (blocklyKey w) (workspaceRef w) (blockly w) t
          (checkTimer w) (autoSaveDue w) (calls w).

Definition set_checkTimer (t : option Z) (w : World Ctx) : World Ctx :=
  mkWorld (ide w) (blocklyKey w) (workspaceRef w) (blockly w) (now w)
          t (autoSaveDue w) (calls w).

Definition set_autoSaveDue (t : Z) (w : World Ctx) : World Ctx :=
  mkWorld (ide w) (blocklyKey w) (workspaceRef w) (blockly w) (now w)
          (checkTimer w) t (calls w).

Definition log (c : Call) (w : World Ctx) : World Ctx :=
  mkWorld (ide w) (blocklyKey w) (workspaceRef w) (blockly w) (now w)
          (checkTimer w) (autoSaveDue w) (calls w ++ [c]).

(** *** Monadic primitives *)

(** Read a value of the last render.  A callback closes over the values
    of the render that made it, and [useCallback] makes it anew whenever
    one of them changes, so what it sees when called is the current
    value. *)
Definition reads {A} (f : Ctx → A) : Handler Ctx A :=
  λ w, (Normal (f (ide w)), w).

(** [await op(...)]: the call is made, the context moves on, and a
    rejection is thrown at the point of the [await]. *)
Definition await (c : Call) (op : Ctx → Settled * Ctx) : Handler Ctx unit :=
  λ w,
    let w1 := log c w in
    match op (ide w1) with
    | (Fulfilled, ctx') => (Normal tt, set_ide ctx' w1)
    | (Rejected e, ctx') => (Throw e, set_ide ctx' w1)
    end.

(** A synchronous call on the context. *)
Definition invoke (c : Call) (op : Ctx → Ctx) : Handler Ctx unit :=
  λ w, let w1 := log c w in (Normal tt, set_ide (op (ide w1)) w1).

(** [setBlocklyKey(f)] with a functional update. *)
Definition setBlocklyKey (f : Z → Z) : Handler Ctx unit :=
  λ w, (Normal tt, set_blocklyKey (f (blocklyKey w)) w).

(** *** The callbacks of [IDEContent] *)

(** Index.tsx 51-57. *)
Definition getWorkspaceXml : Handler Ctx string :=
  λ w,
    match workspaceRef w with
    | Some ws => (Normal (workspaceText (blockly w) ws), w)
    | None => (Normal "", w)
    end.

(** Index.tsx 59-64. *)
Definition handleSave : Handler Ctx unit :=
  xml ← getWorkspaceXml;
  if truthy xml then
    code ← reads generatedCode;
    await (CallSaveProject xml code) (saveProject xml code)
  else mret tt.

(** Index.tsx 66-69. *)
Definition handleNewProject (name : string) : Handler Ctx unit :=
  got ← getWorkspaceXml;
  let xml := js_or got "" in
  code ← reads generatedCode;
  await (CallCreateNewProject name xml code) (createNewProject name xml code).

(** Index.tsx 71-76. *)
Definition handleOpenProject (id : string) : Handler Ctx unit :=
  await (CallOpenProject id) (openProject id);;
  setBlocklyKey (λ prev, prev + 1);;
  invoke (CallAddConsoleMessage info "Proyecto cargado correctamente")
         (addConsoleMessage info "Proyecto cargado correctamente").

(** Index.tsx 78-82. *)
Definition handleImportProject (blocklyXml name board : string) : Handler Ctx unit :=
  await (CallImportProject blocklyXml name board) (importProject blocklyXml name board);;
  setBlocklyKey (λ prev, prev + 1).

(** Index.tsx 37-45: the body of the delayed check. *)
Definition checkWorkspace (w : World Ctx) : World Ctx :=
  if container (blockly w) then
    match mainWorkspace (blockly w) with
    | Some workspace => set_workspaceRef (Some workspace) w
    | None => w
    end
  else w.

(** Index.tsx 86-90: the interval callback.  [handleSave()] is not
    awaited: whatever it throws is dropped, what it did stays. *)
Definition autoSaveTick (w : World Ctx) : World Ctx :=
  match currentProject (ide w) with
  | Some _ => snd (handleSave w)
  | None => w
  end.

(** *** Effects

    After a state change React renders again and re-runs every effect
    one of whose dependencies changed: its cleanup clears the old timer,
    its body sets a new one. *)

(** Index.tsx 47-48 with dependency [blocklyKey]. *)
Definition armCheck (w : World Ctx) : World Ctx :=
  set_checkTimer (Some (now w + CHECK_DELAY)) w.

(** Index.tsx 85-92 with dependencies [currentProject] and
    [handleSave]; of the dependencies of [handleSave] only
    [generatedCode] is a value, the others are functions taken as
    stable. *)
Definition armAutoSave (w : World Ctx) : World Ctx :=
  set_autoSaveDue (now w + AUTO_SAVE_INTERVAL) w.

Definition autoSaveDeps (w : World Ctx) : option Project * string :=
  (currentProject (ide w), generatedCode (ide w)).

Definition runEffects (before after : World Ctx) : World Ctx :=
  let w1 := if decide (blocklyKey before = blocklyKey after)
            then after else armCheck after in
  if decide (autoSaveDeps before = autoSaveDeps after)
  then w1 else armAutoSave w1.

(** First render: both effects run. *)
Definition mount (ctx : Ctx) (b : BlocklyEnv) (t0 : Z) : World Ctx :=
  mkWorld ctx 0 None b t0 (Some (t0 + CHECK_DELAY)) (t0 + AUTO_SAVE_INTERVAL) [].

(** *** Events *)

Inductive Event :=
| ToolbarSave
| ToolbarNewProject (name : string)
| ToolbarOpenProject (id : string)
| ToolbarImportProject (blocklyXml name board : string)
| BlocklyChanged (b : BlocklyEnv)   (* the editor mounts, or the user edits *)
| Delay (dt : Z)
| FireCheckWorkspace
| FireAutoSave.

(** No timer is due before [t]. *)
Definition quietUntil (t : Z) (w : World Ctx) : bool :=
  bool_decide (t ≤ autoSaveDue w) &&
  match checkTimer w with
  | Some d => bool_decide (t ≤ d)
  | None => true
  end.

(** Run a callback and let React render. *)
Definition dispatch (h : Handler Ctx unit) (w : World Ctx) : World Ctx :=
  runEffects w (snd (h w)).

(** One event of the page.  Time only passes in [Delay], and never past
    a pending timer; a timer fires when the clock stands on its due
    time. *)
Definition step (e : Event) (w : World Ctx) : option (World Ctx) :=
  match e with
  | ToolbarSave => Some (dispatch handleSave w)
  | ToolbarNewProject name => Some (dispatch (handleNewProject name) w)
  | ToolbarOpenProject id => Some (dispatch (handleOpenProject id) w)
  | ToolbarImportProject x n b => Some (dispatch (handleImportProject x n b) w)
  | BlocklyChanged b => Some (set_blockly b w)
  | Delay dt =>
      if bool_decide (0 ≤ dt) && quietUntil (now w + dt) w
      then Some (set_now (now w + dt) w) else None
  | FireCheckWorkspace =>
      match checkTimer w with
      | Some d =>
          if decide (d = now w)
          then Some (checkWorkspace (set_checkTimer None w))
          else None
      | None => None
      end
  | FireAutoSave =>
      if decide (autoSaveDue w = now w)
      then
        let w1 := set_autoSaveDue (now w + AUTO_SAVE_INTERVAL) w in
        Some (runEffects w1 (autoSaveTick w1))
      else None
  end.

Fixpoint run (es : list Event) (w : World Ctx) : option (World Ctx) :=
  match es with
  | [] => Some w
  | e :: es' =>
      match step e w with
      | Some w' => run es' w'
      | None => None
      end
  end.

(** The events of the page itself: the clock, the timers and Blockly;
    the others are the callbacks run from the toolbar. *)
Definition isBackground (e : Event) : bool :=
  match e with
  | BlocklyChanged _ | Delay _ | FireCheckWorkspace | FireAutoSave => true
  | _ => false
  end.

(** The document the callbacks read in [w]. *)
Definition documentRead (w : World Ctx) : string :=
  match workspaceRef w with
  | Some ws => workspaceText (blockly w) ws
  | None => ""
  end.

(** A transition that leaves the component's own state, clock and timers
    alone: only the context state and the call log may differ. *)
Definition sameFrame (w w' : World Ctx) : Prop :=
  blocklyKey w' = blocklyKey w ∧
  workspaceRef w' = workspaceRef w ∧
  blockly w' = blockly w ∧
  now w' = now w ∧
  checkTimer w' = checkTimer w ∧
  autoSaveDue w' = autoSaveDue w.

End Component.

(** ** Reading the runs of the page *)

Definition isSaveProjectCall (c : Call) : bool :=
  match c with
  | CallSaveProject _ _ => true
  | _ => false
  end.

Section Runs.
Context {Ctx : Type} `{IDEContextType Ctx}.

(** The events whose callbacks call [setBlocklyKey] (Index.tsx 74, 81). *)
Definition isRemount (e : Event) : bool :=
  match e with
  | ToolbarOpenProject _ | ToolbarImportProject _ _ _ => true
  | _ => false
  end.

Fixpoint countRemounts (es : list Event) : Z :=
  match es with
  | [] => 0
  | e :: es' => (if isRemount e then 1 else 0) + countRemounts es'
  end.

(** No timer is overdue, and none is further away than its delay: the
    interval at most 30000 ms, a pending check at most 500 ms. *)
Definition timersInRange (w : World Ctx) : Prop :=
  now w ≤ autoSaveDue w ≤ now w + AUTO_SAVE_INTERVAL ∧
  match checkTimer w with
  | Some d => now w ≤ d ≤ now w + CHECK_DELAY
  | None => True
  end.

End Runs.

(** ** The session orchestrator behind [useIDE()] *)

Module ProjectStore.

(** Modelled from the spec: the IDE context module (the [IDEProvider] of
    [@/contexts/IDEContext]) and its storage are not among the sources.
    ProjectStore is the durable storage of project records, keyed by id;
    [available] says whether the next write goes through (the design's
    PersistenceFailure: I/O, quota). *)
Record t := mk {
  records : gmap string Project;
  available : bool
}.

(** Modelled from the spec: [fetch(id) -> Project | NotFound]; [None]
    stands for NotFound. *)
Definition fetch (i : string) (s : t) : option Project :=
  records s !! i.

(** Modelled from the spec: [create(Project) -> id]; [None] stands for a
    failed write. *)
Definition create (p : Project) (s : t) : option t :=
  if available s
  then Some (mk (<[id p := p]> (records s)) (available s))
  else None.

(** Modelled from the spec: [update(id, partialFields) -> ok | Error],
    here with the fields a save writes, the (workspace document,
    generated source) pair.  Partial fields cannot make a record, so
    updating an absent id is an Error. *)
Definition update (i doc src : string) (s : t) : option t :=
  if available s then
    match records s !! i with
    | Some r =>
        Some (mk (<[i := mkProject (id r) (name r) doc src (board r)]> (records s))
                 (available s))
    | None => None
    end
  else None.

Fixpoint zeros (n : nat) : string :=
  match n with
  | O => ""
  | S n' => "0" +:+ zeros n'
  end.

(** Modelled from the spec: "a freshly minted id".  The minted id is
    longer than every id in the store, hence not among them. *)
Definition mintId (s : t) : string :=
  "p" +:+ zeros (max_list (String.length <$> (map_to_list (records s)).*1)).

(** Modelled from the spec: the store is keyed by project id, every
    record sits under its own id. *)
Definition keyedById (s : t) : Prop :=
  map_Forall (λ i p, id p = i) (records s).

End ProjectStore.

Module Orchestrator.

Inductive Tab := TabCode | TabConsole | TabSerial.

(** Modelled from the spec: the session state, exactly one active
    project or none, one active output tab, one selected board, owned by
    the orchestrator together with the console sequence, the generated
    source it is handed and the store it writes to. *)
Record IDEState := mkState {
  activeProject : option Project;
  sourceText : string;
  selectedBoard : string;
  activeTab : Tab;
  console : list ConsoleMessage;
  store : ProjectStore.t
}.

Definition set_activeProject (p : option Project) (s : IDEState) : IDEState :=
  mkState p (sourceText s) (selectedBoard s) (activeTab s) (console s) (store s).

Definition set_selectedBoard (b : string) (s : IDEState) : IDEState :=
  mkState (activeProject s) (sourceText s) b (activeTab s) (console s) (store s).

Definition set_store (st : ProjectStore.t) (s : IDEState) : IDEState :=
  mkState (activeProject s) (sourceText s) (selectedBoard s) (activeTab s) (console s) st.

(** Modelled from the spec: [addConsoleMessage(level, text)] appends to
    the console sequence, never fails, never drops earlier messages. *)
Definition appendConsole (l : ConsoleLevel) (t : string) (s : IDEState) : IDEState :=
  mkState (activeProject s) (sourceText s) (selectedBoard s) (activeTab s)
          (console s ++ [mkMessage l t]) (store s).

(** Modelled from the spec: a persistence failure is surfaced as an
    error-level console message; the design fixes the level, not the
    wording. *)
Definition persistenceFailureText : string := "persistence failure".

(** Modelled from the spec: saveProject writes the (workspace document,
    generated source) pair to the store under the active project's id;
    nothing else changes.  A failed write becomes an error message and
    leaves the active project as it is.  Its precondition is an active
    project; without one the design says nothing and the model does
    nothing. *)
Definition save (doc src : string) (s : IDEState) : Settled * IDEState :=
  match activeProject s with
  | Some p =>
      match ProjectStore.update (id p) doc src (store s) with
      | Some st' => (Fulfilled, set_store st' s)
      | None => (Fulfilled, appendConsole error persistenceFailureText s)
      end
  | None => (Fulfilled, s)
  end.

(** Modelled from the spec: createNewProject always succeeds locally; it
    builds a Project with a freshly minted id, makes it the active
    project and at once asks for a durable write. *)
Definition create (nm doc src : string) (s : IDEState) : Settled * IDEState :=
  let p := mkProject (ProjectStore.mintId (store s)) nm doc src (selectedBoard s) in
  let s1 := set_activeProject (Some p) s in
  match ProjectStore.create p (store s) with
  | Some st' => (Fulfilled, set_store st' s1)
  | None => (Fulfilled, appendConsole error persistenceFailureText s1)
  end.

(** Modelled from the spec: openProject fetches the Project by id; an
    absent id fails with NotFound, propagated; a found one replaces the
    active project wholesale.  The message that confirms the load is the
    one [handleOpenProject] sends after the call returns. *)
Definition open (i : string) (s : IDEState) : Settled * IDEState :=
  match ProjectStore.fetch i (store s) with
  | Some p => (Fulfilled, set_activeProject (Some p) s)
  | None => (Rejected (NotFound i), s)
  end.

(** Modelled from the spec: importProject is project creation from
    supplied workspace content; it sets the board selection and takes
    the same persistence path.  The generated source recorded is the
    session's current one. *)
Definition import (doc nm brd : string) (s : IDEState) : Settled * IDEState :=
  create nm doc (sourceText s) (set_selectedBoard brd s).

Global Instance context : IDEContextType IDEState := {|
  currentProject := activeProject;
  generatedCode := sourceText;
  saveProject := save;
  createNewProject := create;
  openProject := open;
  importProject := import;
  addConsoleMessage := appendConsole
|}.

(** *** Which id a call establishes *)

(** The id a create, open or import call establishes when it completes:
    the minted one for a creation, the requested one for an open that
    finds its record, none for an open that fails. *)
Definition established (e : @Event) (w : World IDEState) : option string :=
  match e with
  | ToolbarNewProject _ => Some (ProjectStore.mintId (store (ide w)))
  | ToolbarImportProject _ _ _ => Some (ProjectStore.mintId (store (ide w)))
  | ToolbarOpenProject i =>
      match ProjectStore.fetch i (store (ide w)) with
      | Some _ => Some i
      | None => None
      end
  | _ => None
  end.

(** The id established by the most recent call of [es] that established
    one, [last] when there is none. *)
Fixpoint lastEstablished (es : list Event) (w : World IDEState)
         (last : option string) : option string :=
  match es with
  | [] => last
  | e :: es' =>
      match step e w with
      | Some w' =>
          lastEstablished es' w'
            (match established e w with Some i => Some i | None => last end)
      | None => last
      end
  end.

Definition isCreateOrOpen (e : Event) : bool :=
  match e with
  | ToolbarNewProject _ | ToolbarOpenProject _ => true
  | _ => false
  end.

Definition activeId (w : World IDEState) : option string :=
  id <$> currentProject (ide w).

End Orchestrator.

(** ** Sample sessions *)

Module Samples.
Import Orchestrator.

Definition blink : Project :=
  mkProject "p" "Blink" "<xml><block type='led'/></xml>" "void setup(){}" "uno".

Definition blinkStore : ProjectStore.t := ProjectStore.mk {[ "p" := blink ]} true.

Definition idle : IDEState :=
  mkState None "void loop(){}" "uno" TabCode [] blinkStore.

Definition editing : IDEState :=
  mkState (Some blink) "void loop(){}" "uno" TabCode [] blinkStore.

(** No editor on the page. *)
Definition noSurface : BlocklyEnv := mkBlockly false None (λ _, "").

(** Workspace object 1 is mounted and holds one block; any other
    workspace object serializes to the bare root element. *)
Definition surface1 : BlocklyEnv :=
  mkBlockly true (Some 1%nat)
    (λ ws, if Nat.eqb ws 1 then "<xml><block type='led'/></xml>" else "<xml></xml>").

Definition surface2 : BlocklyEnv :=
  mkBlockly true (Some 2%nat)
    (λ ws, if Nat.eqb ws 2 then "<xml><block type='servo'/></xml>" else "<xml></xml>").

(** A project is active, the handle was never set. *)
Definition unmounted : World IDEState :=
  mkWorld editing 0 None noSurface 30000 None 30000 [].

(** A project is active and the handle points at workspace 1. *)
Definition mounted : World IDEState :=
  mkWorld editing 0 (Some 1%nat) surface1 30000 None 30000 [].

(** No project is active; the handle points at workspace 1. *)
Definition noProject : World IDEState :=
  mkWorld idle 0 (Some 1%nat) surface1 30000 None 30000 [].

(** The page is loaded without an editor, the check finds nothing, a
    project is created, and the first auto-save comes due. *)
Definition stalledTrace : list Event :=
  [Delay 500; FireCheckWorkspace; ToolbarNewProject "Blink"; Delay 30000].

Definition blink0 : Project :=
  mkProject "p0" "Blink" "" "void loop(){}" "uno".

Definition stalled : World IDEState :=
  mkWorld
    (mkState (Some blink0) "void loop(){}" "uno" TabCode []
       (ProjectStore.mk (<["p0" := blink0]> {[ "p" := blink ]}) true))
    0 None noSurface 30500 None 30500
    [CallCreateNewProject "Blink" "" "void loop(){}"].

(** Project "p" has just been opened from [noProject]. *)
Definition opened : World IDEState :=
  mkWorld
    (mkState (Some blink) "void loop(){}" "uno" TabCode
       [mkMessage info "Proyecto cargado correctamente"] blinkStore)
    1 (Some 1%nat) surface1 30000 (Some 30500) 60000
    [CallOpenProject "p";
     CallAddConsoleMessage info "Proyecto cargado correctamente"].

(** The reading of C5 that the code does not meet: every tick with an
    active project ends in a call of saveProject. *)
Definition savesOnEveryTick : Prop :=
  ∀ w : World IDEState,
    is_Some (currentProject (ide w)) → autoSaveDue w = now w →
    ∃ w' xml code,
      step FireAutoSave w = Some w' ∧
      calls w' = calls w ++ [CallSaveProject xml code].

End Samples.

Module Sessions.
Import Orchestrator Samples.

(** The page as it loads: no project, no editor on it yet. *)
Definition loading : World IDEState := mount idle noSurface 0.

(** The editor appears only after the check has run, and the user goes
    on saving; two intervals pass. *)
Definition lateMount : list Event :=
  [BlocklyChanged surface1; ToolbarSave; FireAutoSave; Delay 30000;
   ToolbarNewProject "Servo"; Delay 30000; FireAutoSave].

(** A busy first half second: the editor is there at once, a project is
    created and saved before the check has run. *)
Definition eagerUser : list Event :=
  [BlocklyChanged surface1; Delay 200; ToolbarNewProject "Blink";
   ToolbarSave; Delay 299; ToolbarSave].

(** Open, import, a failed open, and saves in between. *)
Definition browsing : list Event :=
  [ToolbarOpenProject "p"; ToolbarSave; Delay 500; FireCheckWorkspace;
   ToolbarImportProject "<xml></xml>" "Imported" "nano";
   ToolbarOpenProject "missing-id"; ToolbarNewProject "Servo"].

(** Right after opening "p" the editor is re-mounted on workspace 2. *)
Definition staleWindow : list Event :=
  [BlocklyChanged surface2; Delay 100].

End Sessions.

(** * Properties *)

(** ** The store *)

Lemma zeros_length (n : nat) : String.length (ProjectStore.zeros n) = n.
Proof. induction n as [|n IH]; simpl; [done | by f_equal]. Qed.

Lemma le_max_list (n : nat) (l : list nat) : n ∈ l → (n ≤ max_list l)%nat.
Proof.
  induction l as [|m l IH]; intros Hin.
  - by apply elem_of_nil in Hin.
  - apply elem_of_cons in Hin as [-> | Hin]; simpl; [lia |].
    specialize (IH Hin). lia.
Qed.

(** A minted id is not in the store. *)
Lemma mintId_fresh (s : ProjectStore.t) :
  ProjectStore.fetch (ProjectStore.mintId s) s = None.
Proof.
  unfold ProjectStore.fetch.
  destruct (ProjectStore.records s !! ProjectStore.mintId s) as [p|] eqn:E; [|done].
  exfalso.
  assert (Hin : String.length (ProjectStore.mintId s)
                ∈ String.length <$> (map_to_list (ProjectStore.records s)).*1).
  { apply list_elem_of_fmap. exists (ProjectStore.mintId s). split; [done |].
    apply list_elem_of_fmap. exists (ProjectStore.mintId s, p). split; [done |].
    by apply elem_of_map_to_list. }
  apply le_max_list in Hin. revert Hin.
  unfold ProjectStore.mintId at 1.
  change (String.length ("p" +:+ ?z)) with (S (String.length z)).
  rewrite zeros_length. lia.
Qed.

Lemma fetch_create (p : Project) (s s' : ProjectStore.t) :
  ProjectStore.create p s = Some s' → ProjectStore.fetch (id p) s' = Some p.
Proof.
  unfold ProjectStore.create, ProjectStore.fetch.
  destruct (ProjectStore.available s); [|done].
  intros [= <-]. simpl. apply lookup_insert_eq.
Qed.

Lemma fetch_update (i doc src : string) (r : Project) (s s' : ProjectStore.t) :
  ProjectStore.fetch i s = Some r →
  ProjectStore.update i doc src s = Some s' →
  ProjectStore.fetch i s' = Some (mkProject (id r) (name r) doc src (board r)).
Proof.
  unfold ProjectStore.update, ProjectStore.fetch. intros ->.
  destruct (ProjectStore.available s); [|done].
  intros [= <-]. simpl. apply lookup_insert_eq.
Qed.

Lemma update_writable (i doc src : string) (r : Project) (s : ProjectStore.t) :
  ProjectStore.available s = true →
  ProjectStore.fetch i s = Some r →
  is_Some (ProjectStore.update i doc src s).
Proof.
  unfold ProjectStore.update, ProjectStore.fetch. intros -> ->. by eexists.
Qed.

Lemma truthy_nonempty (s : string) : s ≠ "" → truthy s = true.
Proof. intros Hs. unfold truthy. by rewrite decide_False. Qed.

Lemma js_or_empty (s : string) : js_or s "" = s.
Proof. unfold js_or, truthy. by case_decide. Qed.

(** ** The callbacks, for every implementation of the context *)

Ltac unfold_handlers :=
  unfold handleSave, handleNewProject, handleOpenProject, handleImportProject,
    getWorkspaceXml, reads, await, invoke, setBlocklyKey,
    mbind, Handler_bind, mret, Handler_ret.

Section ComponentFacts.
Context {Ctx : Type} `{IDEContextType Ctx}.

Lemma getWorkspaceXml_documentRead (w : World Ctx) :
  getWorkspaceXml w = (Normal (documentRead w), w).
Proof. unfold getWorkspaceXml, documentRead. by destruct (workspaceRef w). Qed.

Lemma handleSave_cases (w : World Ctx) :
  handleSave w =
    if truthy (documentRead w)
    then await (CallSaveProject (documentRead w) (generatedCode (ide w)))
               (saveProject (documentRead w) (generatedCode (ide w))) w
    else (Normal tt, w).
Proof.
  unfold handleSave, mbind, Handler_bind.
  rewrite getWorkspaceXml_documentRead. by destruct (truthy _).
Qed.

Lemma getWorkspaceXml_value (w : World Ctx) (s : string) :
  fst (getWorkspaceXml w) = Normal s → getWorkspaceXml w = (Normal s, w).
Proof.
  unfold getWorkspaceXml. destruct (workspaceRef w); simpl; by intros ->.
Qed.

Lemma runEffects_same (w : World Ctx) : runEffects w w = w.
Proof. unfold runEffects. by rewrite !decide_True. Qed.

Lemma handleSave_empty (w : World Ctx) :
  fst (getWorkspaceXml w) = Normal "" → handleSave w = (Normal tt, w).
Proof.
  intros Hx. apply getWorkspaceXml_value in Hx.
  unfold handleSave, mbind, Handler_bind. by rewrite Hx.
Qed.

Lemma await_calls (c : Call) (op : Ctx → Settled * Ctx) (w : World Ctx) :
  calls (snd (await c op w)) = calls w ++ [c].
Proof. unfold await. simpl. by destruct (op (ide w)) as [[|e] ctx']. Qed.

Lemma await_ide (c : Call) (op : Ctx → Settled * Ctx) (w : World Ctx) :
  ide (snd (await c op w)) = snd (op (ide w)).
Proof. unfold await. simpl. by destruct (op (ide w)) as [[|e] ctx']. Qed.

(** C8. Reading the workspace document is total: in every world it
    returns a string normally and changes nothing; the string is the
    serialized document when a handle is held and the empty string when
    none is, so the unmounted case never throws. *)
Theorem getWorkspaceXml_total (w : World Ctx) :
  ∃ s : string,
    getWorkspaceXml w = (Normal s, w) ∧
    match workspaceRef w with
    | Some ws => s = workspaceText (blockly w) ws
    | None => s = ""
    end.
Proof.
  unfold getWorkspaceXml. destruct (workspaceRef w) as [ws|]; eauto.
Qed.

(** C2. When the workspace read returns the empty document, a save,
    from the toolbar or from the auto-save tick, does not call
    saveProject: the handler ends normally and the world, the context
    state and its store included, is exactly what it was. *)
Theorem handleSave_skips_empty_document (w : World Ctx) :
  fst (getWorkspaceXml w) = Normal "" →
  handleSave w = (Normal tt, w) ∧
  step ToolbarSave w = Some w ∧
  autoSaveTick w = w.
Proof.
  intros Hx. pose proof (handleSave_empty w Hx) as Hs.
  split; [done |]. split.
  - simpl. unfold dispatch. rewrite Hs. simpl. by rewrite runEffects_same.
  - unfold autoSaveTick. rewrite Hs. by destruct (currentProject (ide w)).
Qed.

(** What handleNewProject does with whatever the read returned. *)
Lemma handleNewProject_calls (nm got : string) (w : World Ctx) :
  fst (getWorkspaceXml w) = Normal got →
  handleNewProject nm w =
    await (CallCreateNewProject nm got (generatedCode (ide w)))
          (createNewProject nm got (generatedCode (ide w))) w.
Proof.
  intros Hx. apply getWorkspaceXml_value in Hx.
  unfold handleNewProject, mbind, Handler_bind, reads. rewrite Hx.
  by rewrite js_or_empty.
Qed.

End ComponentFacts.

(** ** Timers and effects, for every implementation of the context *)

Section TimerFacts.
Context {Ctx : Type} `{IDEContextType Ctx}.

Lemma await_frame (c : Call) (op : Ctx → Settled * Ctx) (w : World Ctx) :
  sameFrame w (snd (await c op w)).
Proof.
  unfold await, sameFrame. simpl.
  by destruct (op (ide w)) as [[|e] ctx'].
Qed.

Lemma handleSave_frame (w : World Ctx) : sameFrame w (snd (handleSave w)).
Proof.
  rewrite handleSave_cases. destruct (truthy (documentRead w)).
  - apply await_frame.
  - by unfold sameFrame.
Qed.

Lemma handleNewProject_frame (nm : string) (w : World Ctx) :
  sameFrame w (snd (handleNewProject nm w)).
Proof.
  rewrite (handleNewProject_calls nm (documentRead w) w)
    by (by rewrite getWorkspaceXml_documentRead).
  apply await_frame.
Qed.

(** The two handlers that re-mount the editor keep everything of the
    frame but the key. *)
Lemma handleOpenProject_ref (i : string) (w : World Ctx) :
  let w' := snd (handleOpenProject i w) in
  workspaceRef w' = workspaceRef w ∧ blockly w' = blockly w ∧
  now w' = now w ∧ checkTimer w' = checkTimer w ∧
  autoSaveDue w' = autoSaveDue w.
Proof.
  unfold_handlers. simpl.
  by destruct (openProject i (ide w)) as [[|e] ctx'].
Qed.

Lemma handleImportProject_ref (x n b : string) (w : World Ctx) :
  let w' := snd (handleImportProject x n b w) in
  workspaceRef w' = workspaceRef w ∧ blockly w' = blockly w ∧
  now w' = now w ∧ checkTimer w' = checkTimer w ∧
  autoSaveDue w' = autoSaveDue w.
Proof.
  unfold_handlers. simpl.
  by destruct (importProject x n b (ide w)) as [[|e] ctx'].
Qed.

Lemma autoSaveTick_frame (w : World Ctx) : sameFrame w (autoSaveTick w).
Proof.
  unfold autoSaveTick. destruct (currentProject (ide w)).
  - apply handleSave_frame.
  - by unfold sameFrame.
Qed.

Lemma runEffects_fields (a b : World Ctx) :
  ide (runEffects a b) = ide b ∧ calls (runEffects a b) = calls b ∧
  blocklyKey (runEffects a b) = blocklyKey b ∧
  workspaceRef (runEffects a b) = workspaceRef b ∧
  blockly (runEffects a b) = blockly b ∧
  now (runEffects a b) = now b.
Proof. unfold runEffects. by repeat case_decide. Qed.

Lemma runEffects_checkTimer (a b : World Ctx) :
  checkTimer (runEffects a b) =
    if decide (blocklyKey a = blocklyKey b) then checkTimer b
    else Some (now b + CHECK_DELAY).
Proof. unfold runEffects. by repeat case_decide. Qed.

Lemma runEffects_autoSaveDue (a b : World Ctx) :
  autoSaveDue (runEffects a b) =
    if decide (autoSaveDeps a = autoSaveDeps b) then autoSaveDue b
    else now b + AUTO_SAVE_INTERVAL.
Proof. unfold runEffects. by repeat case_decide. Qed.

(** What a callback run from the toolbar leaves of the frame. *)
Lemma dispatch_toolbar (e : Event) (w w' : World Ctx) :
  isBackground e = false → step e w = Some w' →
  ∃ w1, w' = runEffects w w1 ∧
        workspaceRef w1 = workspaceRef w ∧ blockly w1 = blockly w ∧
        now w1 = now w ∧ checkTimer w1 = checkTimer w ∧
        autoSaveDue w1 = autoSaveDue w.
Proof.
  destruct e as [|nm|i|x n b| | | |]; simpl; try done; intros _ [= <-];
    unfold dispatch; eexists; (split; [reflexivity |]).
  - by destruct (handleSave_frame w) as (_ & ? & ? & ? & ? & ?).
  - by destruct (handleNewProject_frame nm w) as (_ & ? & ? & ? & ? & ?).
  - apply handleOpenProject_ref.
  - apply handleImportProject_ref.
Qed.

(** The clock never runs backwards. *)
Lemma step_now_mono (e : Event) (w w' : World Ctx) :
  step e w = Some w' → now w ≤ now w'.
Proof.
  destruct (isBackground e) eqn:Hb.
  - destruct e; simpl in *; try done.
    + intros [= <-]. simpl. lia.
    + destruct (bool_decide (0 ≤ dt)) eqn:Hdt; simpl; [|done].
      apply bool_decide_eq_true in Hdt.
      destruct (quietUntil _ _); [|done]. intros [= <-]. simpl. lia.
    + destruct (checkTimer w) as [d|]; [|done]. case_decide; [|done].
      intros [= <-]. unfold checkWorkspace. simpl.
      destruct (container _); [destruct (mainWorkspace _)|]; simpl; lia.
    + case_decide; [|done]. intros [= <-].
      destruct (runEffects_fields
                  (set_autoSaveDue (now w + AUTO_SAVE_INTERVAL) w)
                  (autoSaveTick (set_autoSaveDue (now w + AUTO_SAVE_INTERVAL) w)))
        as (_ & _ & _ & _ & _ & ->).
      destruct (autoSaveTick_frame (set_autoSaveDue (now w + AUTO_SAVE_INTERVAL) w))
        as (_ & _ & _ & -> & _). simpl. lia.
  - intros Hs. destruct (dispatch_toolbar e w w' Hb Hs) as (w1 & -> & _ & _ & Hn & _).
    destruct (runEffects_fields w w1) as (_ & _ & _ & _ & _ & ->). lia.
Qed.

(** While every pending check is due at [T] or later and a fresh one
    would be too, the handle survives any step taken before [T]. *)
Lemma step_keeps_ref (T : Z) (e : Event) (w w' : World Ctx) :
  T ≤ now w + CHECK_DELAY →
  (∀ d, checkTimer w = Some d → T ≤ d) →
  step e w = Some w' → now w' < T →
  workspaceRef w' = workspaceRef w ∧
  (∀ d, checkTimer w' = Some d → T ≤ d).
Proof.
  intros HT Hd Hs Hlt.
  destruct (isBackground e) eqn:Hb.
  - destruct e; simpl in *; try done.
    + injection Hs as <-. by split.
    + destruct (bool_decide (0 ≤ dt) && quietUntil (now w + dt) w); [|done].
      injection Hs as <-. by split.
    + destruct (checkTimer w) as [d|] eqn:Ed; [|done]. case_decide; [|done].
      subst d. specialize (Hd _ eq_refl).
      pose proof (step_now_mono FireCheckWorkspace w w') as Hm. simpl in Hm.
      rewrite Ed in Hm. rewrite decide_True in Hm by done.
      specialize (Hm Hs). lia.
    + case_decide; [|done]. injection Hs as <-.
      set (w1 := set_autoSaveDue (now w + AUTO_SAVE_INTERVAL) w) in *.
      destruct (runEffects_fields w1 (autoSaveTick w1)) as (_ & _ & _ & -> & _ & _).
      rewrite runEffects_checkTimer.
      destruct (autoSaveTick_frame w1) as (Hk & -> & _ & _ & -> & _).
      rewrite decide_True by done. by split.
  - destruct (dispatch_toolbar e w w' Hb Hs) as (w1 & -> & Hr & _ & Hn & Hc & _).
    destruct (runEffects_fields w w1) as (_ & _ & _ & -> & _ & _).
    split; [done |]. intros d. rewrite runEffects_checkTimer.
    case_decide.
    + rewrite Hc. apply Hd.
    + intros [= <-]. lia.
Qed.

Lemma run_keeps_ref (T : Z) (es : list Event) (w w' : World Ctx) :
  T ≤ now w + CHECK_DELAY →
  (∀ d, checkTimer w = Some d → T ≤ d) →
  run es w = Some w' → now w' < T →
  workspaceRef w' = workspaceRef w.
Proof.
  revert w. induction es as [|e es IH]; intros w HT Hd Hr Hlt; simpl in Hr.
  - by injection Hr as <-.
  - destruct (step e w) as [w1|] eqn:Es; [|done].
    assert (Hmono : ∀ l (a b : World Ctx), run l a = Some b → now a ≤ now b).
    { clear. induction l as [|x l IHl]; intros a b; simpl.
      - intros [= <-]. lia.
      - destruct (step x a) as [a1|] eqn:Ea; [|done]. intros Hl.
        apply step_now_mono in Ea. apply IHl in Hl. lia. }
    pose proof (Hmono _ _ _ Hr) as Hw1.
    pose proof (step_now_mono _ _ _ Es) as Hw.
    destruct (step_keeps_ref T e w w1 HT Hd Es) as [Href Hd1]; [lia |].
    rewrite <- Href. apply IH; [lia | done | done | done].
Qed.

End TimerFacts.

Section TimerClaims.
Context {Ctx : Type} `{IDEContextType Ctx}.

Lemma background_keeps_key (e : Event) (w w' : World Ctx) :
  isBackground e = true → step e w = Some w' → blocklyKey w' = blocklyKey w.
Proof.
  destruct e; simpl; try done; intros _.
  - by intros [= <-].
  - destruct (_ && _); [|done]. by intros [= <-].
  - destruct (checkTimer w); [|done]. case_decide; [|done]. intros [= <-].
    unfold checkWorkspace. simpl.
    by destruct (container _); [destruct (mainWorkspace _)|].
  - case_decide; [|done]. intros [= <-].
    destruct (runEffects_fields
                (set_autoSaveDue (now w + AUTO_SAVE_INTERVAL) w)
                (autoSaveTick (set_autoSaveDue (now w + AUTO_SAVE_INTERVAL) w)))
      as (_ & _ & -> & _).
    by destruct (autoSaveTick_frame (set_autoSaveDue (now w + AUTO_SAVE_INTERVAL) w))
      as (-> & _).
Qed.

(** C10. Every event that changes the remount counter leaves exactly
    one check pending, due 500 ms later, and does not touch the handle.
    Whatever happens next on the page, a read made before those 500 ms
    are over goes through the handle held before the re-mount (the empty
    document when none was held), whichever workspace Blockly shows by
    then.  The check itself fires once: it clears the timer, and takes
    the main workspace as the new handle when the container and the
    workspace are there. *)
Theorem remount_check_is_delayed (e : Event) (w w1 : World Ctx) :
  step e w = Some w1 → blocklyKey w1 ≠ blocklyKey w →
  CHECK_DELAY = 500 ∧
  checkTimer w1 = Some (now w1 + CHECK_DELAY) ∧
  workspaceRef w1 = workspaceRef w ∧
  (∀ es w2, run es w1 = Some w2 → now w2 < now w1 + CHECK_DELAY →
     workspaceRef w2 = workspaceRef w ∧
     getWorkspaceXml w2 =
       (Normal (match workspaceRef w with
                | Some ws => workspaceText (blockly w2) ws
                | None => ""
                end), w2)) ∧
  (∀ w2, checkTimer w2 = Some (now w2) →
     ∃ w3, step FireCheckWorkspace w2 = Some w3 ∧
           checkTimer w3 = None ∧
           step FireCheckWorkspace w3 = None ∧
           workspaceRef w3 =
             match container (blockly w2), mainWorkspace (blockly w2) with
             | true, Some workspace => Some workspace
             | _, _ => workspaceRef w2
             end).
Proof.
  intros Hs Hk.
  destruct (isBackground e) eqn:Hb.
  { by rewrite (background_keeps_key e w w1 Hb Hs) in Hk. }
  destruct (dispatch_toolbar e w w1 Hb Hs) as (wa & -> & Hr & _ & Hn & _).
  destruct (runEffects_fields w wa) as (_ & _ & Hkey & Href & _ & Hnow).
  assert (Ht : checkTimer (runEffects w wa) = Some (now (runEffects w wa) + CHECK_DELAY)).
  { rewrite runEffects_checkTimer, Hnow. rewrite Hkey in Hk.
    by rewrite decide_False by congruence. }
  split; [done |]. split; [done |]. split; [congruence |]. split.
  - intros es w2 Hrun Hlt.
    assert (Hw2 : workspaceRef w2 = workspaceRef w).
    { rewrite <- Hr, <- Href.
      apply (run_keeps_ref (now (runEffects w wa) + CHECK_DELAY) es); [lia | | done | done].
      intros d. rewrite Ht. intros [= <-]. lia. }
    split; [done |].
    rewrite getWorkspaceXml_documentRead. unfold documentRead. by rewrite Hw2.
  - intros w2 Hdue. simpl. rewrite Hdue. rewrite decide_True by done.
    eexists. split; [reflexivity |].
    unfold checkWorkspace. simpl.
    destruct (container (blockly w2)); [destruct (mainWorkspace (blockly w2))|];
      simpl; by repeat split.
Qed.

Lemma background_idle (e : Event) (w w' : World Ctx) :
  isBackground e = true → currentProject (ide w) = None →
  step e w = Some w' → ide w' = ide w ∧ calls w' = calls w.
Proof.
  destruct e; simpl; try done; intros _ Hn.
  - by intros [= <-].
  - destruct (_ && _); [|done]. by intros [= <-].
  - destruct (checkTimer w); [|done]. case_decide; [|done]. intros [= <-].
    unfold checkWorkspace. simpl.
    by destruct (container _); [destruct (mainWorkspace _)|].
  - case_decide; [|done]. intros [= <-].
    set (w1 := set_autoSaveDue (now w + AUTO_SAVE_INTERVAL) w).
    destruct (runEffects_fields w1 (autoSaveTick w1)) as (-> & -> & _).
    unfold autoSaveTick. simpl. by rewrite Hn.
Qed.

(** C6. With no active project the auto-save tick is a no-op, and over
    any stretch of clock and timer events (the page left alone) the
    context state, its store included, stays what it was and no call is
    made on it.  Every event after which the active project has another
    identity re-arms the interval: the next tick is due a full interval
    later. *)
Theorem autoSave_idle_without_project :
  (∀ w : World Ctx, currentProject (ide w) = None → autoSaveTick w = w) ∧
  (∀ (es : list Event) (w w' : World Ctx),
     forallb isBackground es = true → currentProject (ide w) = None →
     run es w = Some w' → ide w' = ide w ∧ calls w' = calls w) ∧
  (∀ (e : Event) (w w' : World Ctx),
     step e w = Some w' →
     id <$> currentProject (ide w') ≠ id <$> currentProject (ide w) →
     autoSaveDue w' = now w' + AUTO_SAVE_INTERVAL).
Proof.
  split; [| split].
  - intros w Hn. unfold autoSaveTick. by rewrite Hn.
  - induction es as [|e es IH]; intros w w' Hall Hn Hr; simpl in *.
    + by injection Hr as <-.
    + apply andb_prop in Hall as [He Hes].
      destruct (step e w) as [w1|] eqn:Es; [|done].
      destruct (background_idle e w w1 He Hn Es) as [Hi Hc].
      destruct (IH w1 w' Hes) as [Hi' Hc']; [by rewrite Hi | done |].
      split; congruence.
  - intros e w w' Hs Hid.
    destruct (isBackground e) eqn:Hb.
    + destruct e; simpl in *; try done.
      * injection Hs as <-. done.
      * destruct (_ && _); [|done]. injection Hs as <-. done.
      * destruct (checkTimer w); [|done]. case_decide; [|done].
        injection Hs as <-. exfalso. apply Hid. unfold checkWorkspace. simpl.
        by destruct (container _); [destruct (mainWorkspace _)|].
      * case_decide; [|done]. injection Hs as <-.
        set (w1 := set_autoSaveDue (now w + AUTO_SAVE_INTERVAL) w) in *.
        destruct (runEffects_fields w1 (autoSaveTick w1)) as (_ & _ & _ & _ & _ & ->).
        rewrite runEffects_autoSaveDue.
        destruct (autoSaveTick_frame w1) as (_ & _ & _ & -> & _ & ->).
        by case_decide.
    + destruct (dispatch_toolbar e w w' Hb Hs) as (w1 & -> & _ & _ & Hn & _).
      destruct (runEffects_fields w w1) as (Hi & _ & _ & _ & _ & ->).
      rewrite runEffects_autoSaveDue. rewrite Hi in Hid.
      case_decide as Hd; [|done].
      exfalso. apply Hid. unfold autoSaveDeps in Hd. by injection Hd as <- _.
Qed.

(** C5, as the code has it. When the interval elapses
    (AUTO_SAVE_INTERVAL = 30000 ms) with a project active, the tick runs
    the save callback without looking at anything but the document it
    reads: saveProject is called with that document and the generated
    code exactly when the document is not empty, whatever the store
    already holds, and the next tick is due one interval later. *)
Theorem autoSave_tick_saves_document (w : World Ctx) :
  is_Some (currentProject (ide w)) → autoSaveDue w = now w →
  AUTO_SAVE_INTERVAL = 30000 ∧
  ∃ w', step FireAutoSave w = Some w' ∧
    now w' = now w ∧
    autoSaveDue w' = now w + AUTO_SAVE_INTERVAL ∧
    if truthy (documentRead w)
    then calls w' = calls w ++ [CallSaveProject (documentRead w) (generatedCode (ide w))] ∧
         ide w' = snd (saveProject (documentRead w) (generatedCode (ide w)) (ide w))
    else calls w' = calls w ∧ ide w' = ide w.
Proof.
  intros [p Hp] Hdue. split; [done |].
  simpl. rewrite decide_True by done.
  set (w1 := set_autoSaveDue (now w + AUTO_SAVE_INTERVAL) w).
  eexists. split; [reflexivity |].
  destruct (runEffects_fields w1 (autoSaveTick w1)) as (-> & -> & _ & _ & _ & ->).
  rewrite runEffects_autoSaveDue.
  destruct (autoSaveTick_frame w1) as (_ & _ & _ & Hn & _ & Hd).
  rewrite Hn, Hd. split; [done |]. split; [by case_decide |].
  unfold autoSaveTick. change (ide w1) with (ide w). rewrite Hp.
  rewrite handleSave_cases.
  change (documentRead w1) with (documentRead w). change (ide w1) with (ide w).
  destruct (truthy (documentRead w)); [|done].
  by rewrite await_calls, await_ide.
Qed.

End TimerClaims.

(** ** The callbacks over the session orchestrator *)

Module OrchestratorFacts.
Import Orchestrator.

Lemma create_keyed (p : Project) (s s' : ProjectStore.t) :
  ProjectStore.keyedById s → ProjectStore.create p s = Some s' → ProjectStore.keyedById s'.
Proof.
  unfold ProjectStore.keyedById, ProjectStore.create. intros Hk.
  destruct (ProjectStore.available s); [|done]. intros [= <-]. simpl.
  by apply map_Forall_insert_2.
Qed.

(** C1. A save on an active project whose record the store can write,
    with the handle on a workspace whose serialized document is not
    empty: the callback (run from the toolbar or by the auto-save tick)
    passes exactly the string the read returned to saveProject, and the
    record then stored under the project's id has that string as its
    workspace document (and the generated code of the call as its
    source; id, name and board as before). *)
Theorem save_stores_document_read
    (w : World IDEState) (p r : Project) (ws : WorkspaceSvg) :
  currentProject (ide w) = Some p →
  workspaceRef w = Some ws →
  workspaceText (blockly w) ws ≠ "" →
  ProjectStore.available (store (ide w)) = true →
  ProjectStore.fetch (id p) (store (ide w)) = Some r →
  ∃ w',
    getWorkspaceXml w = (Normal (workspaceText (blockly w) ws), w) ∧
    handleSave w = (Normal tt, w') ∧
    autoSaveTick w = w' ∧
    calls w' = calls w ++ [CallSaveProject (workspaceText (blockly w) ws)
                                           (generatedCode (ide w))] ∧
    ProjectStore.fetch (id p) (store (ide w')) =
      Some (mkProject (id r) (name r) (workspaceText (blockly w) ws)
                      (generatedCode (ide w)) (board r)) ∧
    (∀ r', ProjectStore.fetch (id p) (store (ide w')) = Some r' →
           workspaceDocument r' = workspaceText (blockly w) ws).
Proof.
  intros Hp Hws Hne Hav Hr.
  assert (Hread : documentRead w = workspaceText (blockly w) ws).
  { unfold documentRead. by rewrite Hws. }
  destruct (update_writable (id p) (workspaceText (blockly w) ws)
              (generatedCode (ide w)) r _ Hav Hr) as [st' Hst'].
  pose proof (fetch_update _ _ _ _ _ _ Hr Hst') as Hf.
  assert (Hsave : handleSave w =
            (Normal tt,
             set_ide (set_store st' (ide w))
               (log (CallSaveProject (workspaceText (blockly w) ws)
                                     (generatedCode (ide w))) w))).
  { rewrite handleSave_cases, Hread, truthy_nonempty by done.
    unfold await. simpl in *. unfold save. rewrite Hp. simpl.
    simpl in Hst'. by rewrite Hst'. }
  eexists. split; [| split; [exact Hsave | split; [| split; [| split]]]].
  - rewrite getWorkspaceXml_documentRead. by rewrite Hread.
  - unfold autoSaveTick. rewrite Hp. by rewrite Hsave.
  - done.
  - exact Hf.
  - simpl. intros r' Hr'. simpl in Hf. rewrite Hf in Hr'. by injection Hr' as <-.
Qed.

(** C3. Opening an id the store does not hold: the rejection NotFound
    comes out of the callback, nothing after the failed call runs, and
    apart from the record of the call the world is what it was: the
    context state with its active project, the remount counter, the
    handle and both timers. *)
Theorem open_missing_is_not_found (w : World IDEState) (i : string) :
  ProjectStore.fetch i (store (ide w)) = None →
  handleOpenProject i w = (Throw (NotFound i), log (CallOpenProject i) w) ∧
  step (ToolbarOpenProject i) w = Some (log (CallOpenProject i) w) ∧
  ide (log (CallOpenProject i) w) = ide w ∧
  currentProject (ide (log (CallOpenProject i) w)) = currentProject (ide w).
Proof.
  intros Hf.
  assert (Ho : handleOpenProject i w = (Throw (NotFound i), log (CallOpenProject i) w)).
  { unfold_handlers. simpl in *. unfold open. rewrite Hf. simpl.
    by destruct w. }
  split; [done |]. split; [| done].
  simpl. unfold dispatch. rewrite Ho. simpl.
  unfold runEffects. by rewrite !decide_True.
Qed.

(** C7. Opening an id the store holds: the callback ends normally, the
    active project is the fetched record, whatever was active before,
    and the console grows by exactly one message, of level info, that
    confirms the load. *)
Theorem open_found_replaces_and_reports
    (w : World IDEState) (i : string) (p : Project) :
  ProjectStore.fetch i (store (ide w)) = Some p →
  ∃ w',
    handleOpenProject i w = (Normal tt, w') ∧
    currentProject (ide w') = Some p ∧
    console (ide w') =
      console (ide w) ++ [mkMessage info "Proyecto cargado correctamente"] ∧
    store (ide w') = store (ide w) ∧
    blocklyKey w' = blocklyKey w + 1 ∧
    calls w' = calls w ++
      [CallOpenProject i;
       CallAddConsoleMessage info "Proyecto cargado correctamente"].
Proof.
  intros Hf. eexists. split.
  - unfold_handlers. simpl in *. unfold open. rewrite Hf. simpl. reflexivity.
  - simpl. repeat split. by rewrite <- app_assoc.
Qed.

(** C9. The new-project callback never skips: in every world and for
    every implementation of the context it calls createNewProject with
    the document it read, the empty string when the read returned the
    empty document, where the save callback makes no call at all.  Over
    the session orchestrator with a store that takes the write, the
    project so created is active and stored under a fresh id with an
    empty workspace document. *)
Theorem newProject_never_skips :
  (∀ (Ctx : Type) (C : IDEContextType Ctx) (nm : string) (w : World Ctx),
     handleNewProject nm w =
       await (CallCreateNewProject nm (documentRead w) (generatedCode (ide w)))
             (createNewProject nm (documentRead w) (generatedCode (ide w))) w ∧
     calls (snd (handleNewProject nm w)) =
       calls w ++ [CallCreateNewProject nm (documentRead w) (generatedCode (ide w))] ∧
     (documentRead w = "" →
        calls (snd (handleNewProject nm w)) =
          calls w ++ [CallCreateNewProject nm "" (generatedCode (ide w))] ∧
        handleSave w = (Normal tt, w))) ∧
  (∀ (nm : string) (w : World IDEState),
     documentRead w = "" →
     ProjectStore.available (store (ide w)) = true →
     ∃ w' p,
       handleNewProject nm w = (Normal tt, w') ∧
       currentProject (ide w') = Some p ∧
       name p = nm ∧ workspaceDocument p = "" ∧
       ProjectStore.fetch (id p) (store (ide w)) = None ∧
       ProjectStore.fetch (id p) (store (ide w')) = Some p).
Proof.
  split.
  - intros Ctx C nm w.
    assert (Hc : handleNewProject nm w =
       await (CallCreateNewProject nm (documentRead w) (generatedCode (ide w)))
             (createNewProject nm (documentRead w) (generatedCode (ide w))) w).
    { apply handleNewProject_calls. by rewrite getWorkspaceXml_documentRead. }
    split; [done |]. split; [by rewrite Hc, await_calls |].
    intros He. split.
    + by rewrite Hc, await_calls, He.
    + apply handleSave_empty. by rewrite getWorkspaceXml_documentRead, He.
  - intros nm w He Hav.
    rewrite (handleNewProject_calls nm "" w)
      by (by rewrite getWorkspaceXml_documentRead, He).
    unfold await. simpl. unfold create.
    destruct (ProjectStore.create _ (store (ide w))) as [st'|] eqn:Ec.
    2: { unfold ProjectStore.create in Ec. by rewrite Hav in Ec. }
    eexists _, _. split; [reflexivity |]. simpl.
    repeat split.
    + apply mintId_fresh.
    + by apply (fetch_create _ _ _ Ec).
Qed.

Lemma step_establishes (e : Event) (w : World IDEState) :
  isCreateOrOpen e = true → ProjectStore.keyedById (store (ide w)) →
  ∃ w', step e w = Some w' ∧
        ProjectStore.keyedById (store (ide w')) ∧
        activeId w' = match established e w with
                      | Some i => Some i
                      | None => activeId w
                      end.
Proof.
  intros He Hk. destruct e as [|nm|i| | | | |]; try done; simpl;
    unfold dispatch; eexists; (split; [reflexivity |]);
    unfold activeId;
    match goal with
    | |- context [runEffects ?a ?b] =>
        destruct (runEffects_fields a b) as (-> & _)
    end.
  - rewrite handleNewProject_calls with (got := documentRead w)
      by (by rewrite getWorkspaceXml_documentRead).
    rewrite await_ide. simpl. unfold create.
    destruct (ProjectStore.create _ _) as [st'|] eqn:Ec; simpl; [|done].
    split; [|done]. by eapply create_keyed.
  - unfold_handlers. simpl. unfold open.
    destruct (ProjectStore.fetch i (store (ide w))) as [p|] eqn:Ef; simpl; [|done].
    split; [done |]. f_equal. by apply (Hk i p).
Qed.

Lemma run_establishes (es : list Event) (w : World IDEState) :
  forallb isCreateOrOpen es = true →
  ProjectStore.keyedById (store (ide w)) →
  ∃ w', run es w = Some w' ∧
        activeId w' = lastEstablished es w (activeId w).
Proof.
  revert w. induction es as [|e es IH]; intros w Hall Hk; simpl in *.
  - by eexists.
  - apply andb_prop in Hall as [He Hes].
    destruct (step_establishes e w He Hk) as (w1 & Hs & Hk1 & Hid).
    rewrite Hs. destruct (IH w1 Hes Hk1) as (w' & Hr & Hact).
    exists w'. split; [done |]. by rewrite Hact, Hid.
Qed.

Lemma forallb_take {A} (f : A → bool) (l : list A) (n : nat) :
  forallb f l = true → forallb f (take n l) = true.
Proof.
  revert n. induction l as [|a l IH]; intros [|n]; simpl; try done.
  intros Hal. apply andb_prop in Hal as [-> Hl]. simpl. by apply IH.
Qed.

(** C4. Over any sequence of new-project and open-project calls, from
    a store whose records sit under their own ids, and at every point of
    it (after any number [n] of its calls): every call went through, the
    session holds one active project or none, never two, and the id of
    the active one is the id established by the latest call that
    completed (the minted id of a creation, the requested id of an open
    that found its record); before any such call it is the one the
    session started with. *)
Theorem active_id_is_last_established
    (es : list Event) (n : nat) (w : World IDEState) :
  forallb isCreateOrOpen es = true →
  ProjectStore.keyedById (store (ide w)) →
  ∃ w', run (take n es) w = Some w' ∧
        activeId w' = lastEstablished (take n es) w (activeId w) ∧
        (∀ p q, currentProject (ide w') = Some p →
                currentProject (ide w') = Some q → p = q).
Proof.
  intros Hall Hk.
  destruct (run_establishes (take n es) w (forallb_take _ es n Hall) Hk)
    as (w' & Hr & Hact).
  exists w'. split; [done |]. split; [done |].
  intros p q Hp Hq. rewrite Hp in Hq. by injection Hq.
Qed.

End OrchestratorFacts.

(** ** Scenarios *)

Module Scenarios.
Import Orchestrator Samples OrchestratorFacts.

Lemma save_stores_document_read_witness :
  currentProject (ide mounted) = Some blink ∧
  workspaceRef mounted = Some 1%nat ∧
  workspaceText (blockly mounted) 1%nat ≠ "" ∧
  ProjectStore.available (store (ide mounted)) = true ∧
  ProjectStore.fetch (id blink) (store (ide mounted)) = Some blink ∧
  ∃ w',
    handleSave mounted = (Normal tt, w') ∧
    calls w' = [CallSaveProject "<xml><block type='led'/></xml>" "void loop(){}"] ∧
    ProjectStore.fetch "p" (store (ide w')) =
      Some (mkProject "p" "Blink" "<xml><block type='led'/></xml>"
                      "void loop(){}" "uno").
Proof.
  assert (H1 : currentProject (ide mounted) = Some blink) by reflexivity.
  assert (H2 : workspaceRef mounted = Some 1%nat) by reflexivity.
  assert (H3 : workspaceText (blockly mounted) 1%nat ≠ "") by (vm_compute; discriminate).
  assert (H4 : ProjectStore.available (store (ide mounted)) = true) by reflexivity.
  assert (H5 : ProjectStore.fetch (id blink) (store (ide mounted)) = Some blink)
    by reflexivity.
  repeat (split; [assumption |]).
  destruct (save_stores_document_read mounted blink blink 1%nat H1 H2 H3 H4 H5)
    as (w' & _ & Hs & _ & Hc & Hf & _).
  exists w'. split; [exact Hs |]. split; [exact Hc | exact Hf].
Defined.

Lemma handleSave_skips_empty_document_witness :
  fst (getWorkspaceXml unmounted) = Normal "" ∧
  handleSave unmounted = (Normal tt, unmounted) ∧
  step ToolbarSave unmounted = Some unmounted ∧
  autoSaveTick unmounted = unmounted.
Proof.
  assert (H1 : fst (getWorkspaceXml unmounted) = Normal "") by reflexivity.
  split; [exact H1 |].
  exact (handleSave_skips_empty_document unmounted H1).
Defined.

Lemma open_missing_is_not_found_witness :
  ProjectStore.fetch "missing-id" (store (ide mounted)) = None ∧
  handleOpenProject "missing-id" mounted =
    (Throw (NotFound "missing-id"), log (CallOpenProject "missing-id") mounted) ∧
  currentProject (ide (log (CallOpenProject "missing-id") mounted)) = Some blink.
Proof.
  assert (H1 : ProjectStore.fetch "missing-id" (store (ide mounted)) = None)
    by reflexivity.
  split; [exact H1 |].
  destruct (open_missing_is_not_found mounted "missing-id" H1) as (Ho & _ & _ & Hc).
  split; [exact Ho | exact Hc].
Defined.

Lemma active_id_is_last_established_witness :
  forallb isCreateOrOpen
    [ToolbarOpenProject "p"; ToolbarNewProject "Servo"; ToolbarOpenProject "missing-id"]
    = true ∧
  ProjectStore.keyedById (store (ide noProject)) ∧
  ∃ w',
    run [ToolbarOpenProject "p"; ToolbarNewProject "Servo"; ToolbarOpenProject "missing-id"]
        noProject = Some w' ∧
    activeId w' = Some "p0".
Proof.
  assert (H1 : forallb isCreateOrOpen
                 [ToolbarOpenProject "p"; ToolbarNewProject "Servo";
                  ToolbarOpenProject "missing-id"] = true) by reflexivity.
  assert (H2 : ProjectStore.keyedById (store (ide noProject))).
  { apply (bool_decide_unpack _). vm_compute. exact I. }
  split; [exact H1 |]. split; [exact H2 |].
  destruct (active_id_is_last_established _ 3 noProject H1 H2) as (w' & Hr & Ha & _).
  exists w'. split; [exact Hr | exact Ha].
Defined.

(** C5 as stated fails: in a session that starts without an editor on the
    page, a project is created and the interval elapses; the project is
    active, the tick fires, and no call of saveProject is made. *)
Lemma autoSave_tick_unmounted_counterexample :
  run stalledTrace (mount idle noSurface 0) = Some stalled ∧
  is_Some (currentProject (ide stalled)) ∧
  autoSaveDue stalled = now stalled ∧
  step FireAutoSave stalled = Some (set_autoSaveDue 60500 stalled) ∧
  calls (set_autoSaveDue 60500 stalled) = calls stalled ∧
  ¬ savesOnEveryTick.
Proof.
  assert (H1 : is_Some (currentProject (ide stalled))) by (by eexists).
  assert (H2 : autoSaveDue stalled = now stalled) by reflexivity.
  split; [reflexivity |]. split; [exact H1 |]. split; [exact H2 |].
  split; [reflexivity |]. split; [reflexivity |].
  intros Hall. destruct (Hall stalled H1 H2) as (w' & xml & code & Hs & Hc).
  vm_compute in Hs. injection Hs as <-. vm_compute in Hc. discriminate Hc.
Qed.

Lemma autoSave_tick_saves_document_witness :
  is_Some (currentProject (ide mounted)) ∧
  autoSaveDue mounted = now mounted ∧
  ∃ w',
    step FireAutoSave mounted = Some w' ∧
    autoSaveDue w' = 60000 ∧
    calls w' = [CallSaveProject "<xml><block type='led'/></xml>" "void loop(){}"].
Proof.
  assert (H1 : is_Some (currentProject (ide mounted))) by (by eexists).
  assert (H2 : autoSaveDue mounted = now mounted) by reflexivity.
  split; [exact H1 |]. split; [exact H2 |].
  destruct (autoSave_tick_saves_document mounted H1 H2)
    as (_ & w' & Hs & _ & Hd & Hc).
  exists w'. split; [exact Hs |]. split; [exact Hd |]. exact (proj1 Hc).
Defined.

Lemma autoSave_idle_without_project_witness :
  autoSaveTick noProject = noProject ∧
  currentProject (ide noProject) = None ∧
  forallb isBackground [Delay 0; FireAutoSave; Delay 30000; FireAutoSave] = true ∧
  (∃ w', run [Delay 0; FireAutoSave; Delay 30000; FireAutoSave] noProject = Some w' ∧
         now w' = 60000 ∧
         ide w' = ide noProject ∧ calls w' = calls noProject) ∧
  step (ToolbarOpenProject "p") noProject = Some opened ∧
  id <$> currentProject (ide opened) ≠ id <$> currentProject (ide noProject) ∧
  autoSaveDue opened = now opened + AUTO_SAVE_INTERVAL.
Proof.
  assert (H1 : currentProject (ide noProject) = None) by reflexivity.
  assert (H2 : forallb isBackground
                 [Delay 0; FireAutoSave; Delay 30000; FireAutoSave] = true)
    by reflexivity.
  assert (H3 : step (ToolbarOpenProject "p") noProject = Some opened) by reflexivity.
  assert (H4 : id <$> currentProject (ide opened) ≠ id <$> currentProject (ide noProject))
    by (vm_compute; discriminate).
  destruct (@autoSave_idle_without_project IDEState _) as (Ha & Hb & Hc).
  split; [exact (Ha noProject H1) |]. split; [exact H1 |]. split; [exact H2 |].
  split.
  - eexists. split; [reflexivity |]. split; [reflexivity |].
    exact (Hb [Delay 0; FireAutoSave; Delay 30000; FireAutoSave] noProject _
              H2 H1 eq_refl).
  - split; [exact H3 |]. split; [exact H4 |].
    exact (Hc (ToolbarOpenProject "p") noProject opened H3 H4).
Defined.

Lemma open_found_replaces_and_reports_witness :
  ProjectStore.fetch "p" (store (ide noProject)) = Some blink ∧
  ∃ w',
    handleOpenProject "p" noProject = (Normal tt, w') ∧
    currentProject (ide w') = Some blink ∧
    console (ide w') = [mkMessage info "Proyecto cargado correctamente"].
Proof.
  assert (H1 : ProjectStore.fetch "p" (store (ide noProject)) = Some blink)
    by reflexivity.
  split; [exact H1 |].
  destruct (open_found_replaces_and_reports noProject "p" blink H1)
    as (w' & Ho & Hp & Hc & _).
  exists w'. split; [exact Ho |]. split; [exact Hp | exact Hc].
Defined.

Lemma newProject_never_skips_witness :
  documentRead unmounted = "" ∧
  ProjectStore.available (store (ide unmounted)) = true ∧
  calls (snd (handleNewProject "Servo" unmounted)) =
    [CallCreateNewProject "Servo" "" "void loop(){}"] ∧
  handleSave unmounted = (Normal tt, unmounted) ∧
  ∃ w' p,
    handleNewProject "Servo" unmounted = (Normal tt, w') ∧
    currentProject (ide w') = Some p ∧
    workspaceDocument p = "" ∧
    ProjectStore.fetch (id p) (store (ide w')) = Some p.
Proof.
  assert (H1 : documentRead unmounted = "") by reflexivity.
  assert (H2 : ProjectStore.available (store (ide unmounted)) = true) by reflexivity.
  split; [exact H1 |]. split; [exact H2 |].
  destruct newProject_never_skips as [Hg Ho].
  destruct (Hg IDEState _ "Servo" unmounted) as (_ & _ & He).
  destruct (He H1) as [Hc Hs].
  split; [exact Hc |]. split; [exact Hs |].
  destruct (Ho "Servo" unmounted H1 H2) as (w' & p & Hn & Hp & _ & Hd & _ & Hf).
  exists w', p. split; [exact Hn |]. split; [exact Hp |]. split; [exact Hd | exact Hf].
Defined.

Lemma remount_check_is_delayed_witness :
  step (ToolbarOpenProject "p") noProject = Some opened ∧
  blocklyKey opened ≠ blocklyKey noProject ∧
  checkTimer opened = Some 30500 ∧
  ∃ w2, run [Delay 100; BlocklyChanged surface2; Delay 399] opened = Some w2 ∧
        now w2 < now opened + CHECK_DELAY ∧
        mainWorkspace (blockly w2) = Some 2%nat ∧
        workspaceRef w2 = Some 1%nat ∧
        getWorkspaceXml w2 = (Normal "<xml></xml>", w2).
Proof.
  assert (H1 : step (ToolbarOpenProject "p") noProject = Some opened) by reflexivity.
  assert (H2 : blocklyKey opened ≠ blocklyKey noProject) by (vm_compute; discriminate).
  split; [exact H1 |]. split; [exact H2 |].
  destruct (remount_check_is_delayed (ToolbarOpenProject "p") noProject opened H1 H2)
    as (_ & Ht & _ & Hread & _).
  split; [exact Ht |].
  eexists. split; [reflexivity |]. split; [reflexivity |]. split; [reflexivity |].
  refine (let Hw := Hread [Delay 100; BlocklyChanged surface2; Delay 399] _ eq_refl eq_refl
          in conj (proj1 Hw) (proj2 Hw)).
Defined.

(** Half a second after the re-mount the check fires and the handle moves
    to the workspace Blockly shows now; reads then see its blocks. *)
Example check_picks_up_new_surface :
  ∃ w,
    run [Delay 100; BlocklyChanged surface2; Delay 400; FireCheckWorkspace] opened
      = Some w ∧
    workspaceRef w = Some 2%nat ∧
    checkTimer w = None ∧
    getWorkspaceXml w = (Normal "<xml><block type='servo'/></xml>", w).
Proof. eexists. repeat split; reflexivity. Qed.

(** A timer cannot be slept through: a delay that would pass the pending
    check is not a run of the page. *)
Example delay_stops_at_due_timer :
  run [Delay 501] opened = None ∧
  run [FireCheckWorkspace] opened = None.
Proof. split; reflexivity. Qed.

(** After a creation the next save updates the same record: the store
    still holds two records. *)
Example save_after_create_updates_same_record :
  ∃ w,
    run [ToolbarNewProject "Servo"; ToolbarSave] mounted = Some w ∧
    activeId w = Some "p0" ∧
    size (ProjectStore.records (store (ide w))) = 2%nat ∧
    workspaceDocument <$> ProjectStore.fetch "p0" (store (ide w)) =
      Some "<xml><block type='led'/></xml>".
Proof. eexists. repeat split; reflexivity. Qed.

End Scenarios.

(** ** Runs of the page, for every implementation of the context *)

Section RunFacts.
Context {Ctx : Type} `{IDEContextType Ctx}.

Lemma run_now_mono (es : list Event) (w w' : World Ctx) :
  run es w = Some w' → now w ≤ now w'.
Proof.
  revert w. induction es as [|e es IH]; intros w; simpl.
  - intros [= <-]. lia.
  - destruct (step e w) as [w1|] eqn:Es; [|done]. intros Hr.
    apply step_now_mono in Es. apply IH in Hr. lia.
Qed.

Lemma handleOpenProject_cases (i : string) (w : World Ctx) :
  handleOpenProject i w =
    match openProject i (ide w) with
    | (Fulfilled, ctx') =>
        (Normal tt,
         mkWorld (addConsoleMessage info "Proyecto cargado correctamente" ctx')
                 (blocklyKey w + 1) (workspaceRef w) (blockly w) (now w)
                 (checkTimer w) (autoSaveDue w)
                 (calls w ++ [CallOpenProject i;
                              CallAddConsoleMessage info "Proyecto cargado correctamente"]))
    | (Rejected e, ctx') =>
        (Throw e, set_ide ctx' (log (CallOpenProject i) w))
    end.
Proof.
  unfold_handlers. simpl.
  destruct (openProject i (ide w)) as [[|e] ctx']; simpl; [|done].
  unfold set_ide, log, set_blocklyKey. simpl. by rewrite <- app_assoc.
Qed.

Lemma handleImportProject_cases (x n b : string) (w : World Ctx) :
  handleImportProject x n b w =
    match importProject x n b (ide w) with
    | (Fulfilled, ctx') =>
        (Normal tt,
         set_blocklyKey (blocklyKey w + 1)
           (set_ide ctx' (log (CallImportProject x n b) w)))
    | (Rejected e, ctx') =>
        (Throw e, set_ide ctx' (log (CallImportProject x n b) w))
    end.
Proof.
  unfold_handlers. simpl.
  by destruct (importProject x n b (ide w)) as [[|e] ctx'].
Qed.

(** X1. Importing a project makes one call, importProject with the
    document, the name and the board in that order, and nothing else on
    the context (no console message, unlike opening).  When the promise is
    fulfilled the remount counter goes up by one and a check is scheduled
    500 ms on; when it is rejected the rejection leaves the callback, the
    counter keeps its value and the pending check, if any, stays as it
    was. *)
Theorem handleImportProject_remounts_on_success
    (x n b : string) (w : World Ctx) :
  calls (snd (handleImportProject x n b w)) = calls w ++ [CallImportProject x n b] ∧
  ide (snd (handleImportProject x n b w)) = snd (importProject x n b (ide w)) ∧
  ∃ w', step (ToolbarImportProject x n b) w = Some w' ∧
    match fst (importProject x n b (ide w)) with
    | Fulfilled =>
        fst (handleImportProject x n b w) = Normal tt ∧
        blocklyKey w' = blocklyKey w + 1 ∧
        checkTimer w' = Some (now w + CHECK_DELAY)
    | Rejected e =>
        fst (handleImportProject x n b w) = Throw e ∧
        blocklyKey w' = blocklyKey w ∧
        checkTimer w' = checkTimer w
    end.
Proof.
  simpl. unfold dispatch. rewrite handleImportProject_cases.
  destruct (importProject x n b (ide w)) as [[|e] ctx']; simpl;
    (split; [done |]); (split; [done |]); eexists; (split; [reflexivity |]);
    match goal with
    | |- context [runEffects ?a ?c] =>
        destruct (runEffects_fields a c) as (_ & _ & -> & _);
        rewrite (runEffects_checkTimer a c)
    end; simpl.
  - rewrite decide_False by lia. done.
  - rewrite decide_True by done. done.
Qed.

(** X2. Opening a project, whatever the context does: when openProject
    is rejected the rejection leaves the callback, the remount counter
    keeps its value and addConsoleMessage is not called; when it is
    fulfilled the counter goes up by one and exactly one call follows the
    open, addConsoleMessage with level info and the text "Proyecto cargado
    correctamente", made on the state openProject left. *)
Theorem handleOpenProject_reports_only_success (i : string) (w : World Ctx) :
  match openProject i (ide w) with
  | (Fulfilled, ctx') =>
      fst (handleOpenProject i w) = Normal tt ∧
      blocklyKey (snd (handleOpenProject i w)) = blocklyKey w + 1 ∧
      ide (snd (handleOpenProject i w)) =
        addConsoleMessage info "Proyecto cargado correctamente" ctx' ∧
      calls (snd (handleOpenProject i w)) =
        calls w ++ [CallOpenProject i;
                    CallAddConsoleMessage info "Proyecto cargado correctamente"]
  | (Rejected e, ctx') =>
      fst (handleOpenProject i w) = Throw e ∧
      blocklyKey (snd (handleOpenProject i w)) = blocklyKey w ∧
      ide (snd (handleOpenProject i w)) = ctx' ∧
      calls (snd (handleOpenProject i w)) = calls w ++ [CallOpenProject i]
  end.
Proof.
  rewrite handleOpenProject_cases.
  by destruct (openProject i (ide w)) as [[|e] ctx'].
Qed.

(** What one step adds to the calls made on the context; without a
    handle none of it is a saveProject. *)
Lemma step_calls (e : Event) (w w' : World Ctx) :
  step e w = Some w' →
  ∃ l, calls w' = calls w ++ l ∧
       (workspaceRef w = None →
        forallb (λ c, negb (isSaveProjectCall c)) l = true).
Proof.
  assert (Hsave : ∀ v : World Ctx,
            ∃ l, calls (snd (handleSave v)) = calls v ++ l ∧
                 (workspaceRef v = None →
                  forallb (λ c, negb (isSaveProjectCall c)) l = true)).
  { intros v. rewrite handleSave_cases.
    destruct (truthy (documentRead v)) eqn:Et.
    - eexists. split; [apply await_calls |].
      intros Hn. unfold documentRead in Et. by rewrite Hn in Et.
    - exists []. by rewrite app_nil_r. }
  destruct e as [|nm|i|x n b|b|dt| |]; simpl; unfold dispatch.
  - intros [= <-]. destruct (runEffects_fields w (snd (handleSave w))) as (_ & -> & _).
    apply Hsave.
  - intros [= <-].
    destruct (runEffects_fields w (snd (handleNewProject nm w))) as (_ & -> & _).
    rewrite (handleNewProject_calls nm (documentRead w) w)
      by (by rewrite getWorkspaceXml_documentRead).
    eexists. split; [apply await_calls | done].
  - intros [= <-].
    destruct (runEffects_fields w (snd (handleOpenProject i w))) as (_ & -> & _).
    rewrite handleOpenProject_cases.
    destruct (openProject i (ide w)) as [[|e] ctx']; simpl; by eexists.
  - intros [= <-].
    destruct (runEffects_fields w (snd (handleImportProject x n b w))) as (_ & -> & _).
    rewrite handleImportProject_cases.
    destruct (importProject x n b (ide w)) as [[|e] ctx']; simpl; by eexists.
  - intros [= <-]. exists []. by rewrite app_nil_r.
  - destruct (_ && _); [|done]. intros [= <-]. exists []. by rewrite app_nil_r.
  - destruct (checkTimer w); [|done]. case_decide; [|done]. intros [= <-].
    exists []. rewrite app_nil_r. unfold checkWorkspace. simpl.
    by destruct (container _); [destruct (mainWorkspace _)|].
  - case_decide; [|done]. intros [= <-].
    set (w1 := set_autoSaveDue (now w + AUTO_SAVE_INTERVAL) w).
    destruct (runEffects_fields w1 (autoSaveTick w1)) as (_ & -> & _).
    unfold autoSaveTick. destruct (currentProject (ide w1)).
    + apply (Hsave w1).
    + exists []. by rewrite app_nil_r.
Qed.

(** X3. Without a handle no event of the page ends in a call of
    saveProject: not the toolbar's save, not the auto-save tick, nor
    anything else.  The calls made so far stay, and what the event adds
    holds no saveProject. *)
Theorem no_handle_no_saveProject (e : Event) (w w' : World Ctx) :
  workspaceRef w = None → step e w = Some w' →
  ∃ l, calls w' = calls w ++ l ∧
       forallb (λ c, negb (isSaveProjectCall c)) l = true.
Proof.
  intros Hn Hs. destruct (step_calls e w w' Hs) as (l & Hl & Hno).
  exists l. split; [done | by apply Hno].
Qed.

(** One step moves the handle only by firing the check, and then only
    onto a workspace. *)
Lemma step_ref (e : Event) (w w' : World Ctx) :
  step e w = Some w' →
  workspaceRef w' = workspaceRef w ∨
  (e = FireCheckWorkspace ∧ is_Some (workspaceRef w')).
Proof.
  destruct (isBackground e) eqn:Hb.
  - destruct e; simpl in *; try done.
    + intros [= <-]. by left.
    + destruct (_ && _); [|done]. intros [= <-]. by left.
    + destruct (checkTimer w); [|done]. case_decide; [|done]. intros [= <-].
      unfold checkWorkspace. simpl.
      destruct (container _); [destruct (mainWorkspace _)|]; simpl; eauto.
    + case_decide; [|done]. intros [= <-]. left.
      set (w1 := set_autoSaveDue (now w + AUTO_SAVE_INTERVAL) w).
      destruct (runEffects_fields w1 (autoSaveTick w1)) as (_ & _ & _ & -> & _).
      by destruct (autoSaveTick_frame w1) as (_ & -> & _).
  - intros Hs. left.
    destruct (dispatch_toolbar e w w' Hb Hs) as (w1 & -> & Hr & _).
    by destruct (runEffects_fields w w1) as (_ & _ & _ & -> & _).
Qed.

(** X4. The handle is never cleared: once it points at a workspace it
    points at one after every run of the page, re-mounts included (the
    workspace it points at may be the one of an editor long gone). *)
Theorem handle_never_cleared (es : list Event) (w w' : World Ctx) :
  is_Some (workspaceRef w) → run es w = Some w' → is_Some (workspaceRef w').
Proof.
  revert w. induction es as [|e es IH]; intros w Hw; simpl.
  - by intros [= <-].
  - destruct (step e w) as [w1|] eqn:Es; [|done]. apply IH.
    destruct (step_ref e w w1 Es) as [-> | [_ Hs]]; done.
Qed.

Lemma step_key (e : Event) (w w' : World Ctx) :
  step e w = Some w' →
  blocklyKey w' = blocklyKey w ∨
  (isRemount e = true ∧ blocklyKey w' = blocklyKey w + 1).
Proof.
  destruct (isBackground e) eqn:Hb.
  - intros Hs. left. by apply (background_keeps_key e).
  - destruct e as [|nm|i|x n b| | | |]; try done; simpl; unfold dispatch;
      intros [= <-];
      match goal with
      | |- context [runEffects ?a ?c] =>
          destruct (runEffects_fields a c) as (_ & _ & -> & _)
      end.
    + left. by destruct (handleSave_frame w) as (-> & _).
    + left. by destruct (handleNewProject_frame nm w) as (-> & _).
    + rewrite handleOpenProject_cases.
      destruct (openProject i (ide w)) as [[|e] ctx']; simpl; eauto.
    + rewrite handleImportProject_cases.
      destruct (importProject x n b (ide w)) as [[|e] ctx']; simpl; eauto.
Qed.

(** X5. The remount counter never goes down, and over a run it goes up
    by at most the number of open and import events in it: saving,
    creating a project, the timers and Blockly never re-mount the
    editor. *)
Theorem blocklyKey_counts_remounts (es : list Event) (w w' : World Ctx) :
  run es w = Some w' →
  blocklyKey w ≤ blocklyKey w' ≤ blocklyKey w + countRemounts es.
Proof.
  revert w. induction es as [|e es IH]; intros w; simpl.
  - intros [= <-]. lia.
  - destruct (step e w) as [w1|] eqn:Es; [|done]. intros Hr.
    specialize (IH w1 Hr).
    destruct (step_key e w w1 Es) as [Hk | [Hre Hk]].
    + destruct (isRemount e); lia.
    + rewrite Hre. lia.
Qed.

(** While no check is pending, a step that is not an open or import
    leaves none pending and the handle where it is. *)
Lemma step_no_check (e : Event) (w w' : World Ctx) :
  checkTimer w = None → isRemount e = false → step e w = Some w' →
  checkTimer w' = None ∧ workspaceRef w' = workspaceRef w.
Proof.
  intros Hc Hre Hs.
  assert (Hk : blocklyKey w' = blocklyKey w).
  { destruct (step_key e w w' Hs) as [Hk | [Hre' _]]; [done | congruence]. }
  destruct (isBackground e) eqn:Hb.
  - destruct e; simpl in *; try done.
    + injection Hs as <-. done.
    + destruct (_ && _); [|done]. injection Hs as <-. done.
    + by rewrite Hc in Hs.
    + case_decide; [|done]. injection Hs as <-.
      set (w1 := set_autoSaveDue (now w + AUTO_SAVE_INTERVAL) w) in *.
      destruct (runEffects_fields w1 (autoSaveTick w1)) as (_ & _ & Hk1 & -> & _).
      rewrite runEffects_checkTimer.
      destruct (autoSaveTick_frame w1) as (Hk2 & -> & _ & _ & -> & _).
      by rewrite decide_True by done.
  - destruct (dispatch_toolbar e w w' Hb Hs) as (w1 & -> & Hr & _ & _ & Ht & _).
    destruct (runEffects_fields w w1) as (_ & _ & Hk1 & -> & _).
    rewrite runEffects_checkTimer. rewrite Hk1 in Hk.
    rewrite decide_True by congruence. split; congruence.
Qed.

(** X6. An editor that appears after the check has run is never picked
    up.  From a world with no handle and no check pending, over any run
    without an open or import (saves, new projects, edits, any number of
    auto-save ticks): the handle stays unset, no check is scheduled, and
    no call of saveProject is made. *)
Theorem late_editor_is_never_saved (es : list Event) (w w' : World Ctx) :
  workspaceRef w = None → checkTimer w = None →
  forallb (λ e, negb (isRemount e)) es = true →
  run es w = Some w' →
  workspaceRef w' = None ∧ checkTimer w' = None ∧
  ∃ l, calls w' = calls w ++ l ∧
       forallb (λ c, negb (isSaveProjectCall c)) l = true.
Proof.
  revert w. induction es as [|e es IH]; intros w Hr Hc Hall; simpl in *.
  - intros [= <-]. repeat split; [done.. |]. exists []. by rewrite app_nil_r.
  - apply andb_prop in Hall as [He Hes]. apply negb_true_iff in He.
    destruct (step e w) as [w1|] eqn:Es; [|done]. intros Hrun.
    destruct (step_no_check e w w1 Hc He Es) as [Hc1 Hr1].
    destruct (step_calls e w w1 Es) as (l1 & Hl1 & Hno1).
    destruct (IH w1) as (Hr' & Hc' & l2 & Hl2 & Hno2); [congruence | done..|].
    repeat split; [done.. |]. exists (l1 ++ l2). split.
    + by rewrite Hl2, Hl1, app_assoc.
    + rewrite forallb_app, Hno1, Hno2; done.
Qed.

(** X7. Nothing is saved in the first half second of a page: over any
    run from the first render that ends before the 500 ms of the first
    check are over, the handle is still unset and no call of saveProject
    has been made, whatever the user did and whatever Blockly shows. *)
Theorem first_half_second_saves_nothing
    (ctx : Ctx) (b : BlocklyEnv) (t0 : Z) (es : list Event) (w' : World Ctx) :
  run es (mount ctx b t0) = Some w' → now w' < t0 + CHECK_DELAY →
  workspaceRef w' = None ∧
  forallb (λ c, negb (isSaveProjectCall c)) (calls w') = true.
Proof.
  assert (Hgen : ∀ es (w : World Ctx),
            t0 + CHECK_DELAY ≤ now w + CHECK_DELAY →
            (∀ d, checkTimer w = Some d → t0 + CHECK_DELAY ≤ d) →
            workspaceRef w = None →
            forallb (λ c, negb (isSaveProjectCall c)) (calls w) = true →
            run es w = Some w' → now w' < t0 + CHECK_DELAY →
            workspaceRef w' = None ∧
            forallb (λ c, negb (isSaveProjectCall c)) (calls w') = true).
  { clear es. induction es as [|e es IH]; intros w HT Hd Hr Hc; simpl.
    - by intros [= <-].
    - destruct (step e w) as [w1|] eqn:Es; [|done]. intros Hrun Hlt.
      pose proof (run_now_mono _ _ _ Hrun) as Hm1.
      pose proof (step_now_mono _ _ _ Es) as Hm.
      destruct (step_keeps_ref (t0 + CHECK_DELAY) e w w1 HT Hd Es) as [Href Hd1]; [lia |].
      destruct (step_calls e w w1 Es) as (l & Hl & Hno).
      apply (IH w1); [lia | done | congruence | | done | done].
      rewrite Hl, forallb_app, Hc, (Hno Hr). done. }
  intros Hrun Hlt.
  apply (Hgen es (mount ctx b t0)); simpl; try done.
  intros d [= <-]. lia.
Qed.

Lemma step_timersInRange (e : Event) (w w' : World Ctx) :
  timersInRange w → step e w = Some w' → timersInRange w'.
Proof.
  unfold timersInRange. intros [Ha Hc].
  assert (Hi : 0 ≤ AUTO_SAVE_INTERVAL ∧ 0 ≤ CHECK_DELAY)
    by (unfold AUTO_SAVE_INTERVAL, CHECK_DELAY; lia).
  destruct (isBackground e) eqn:Hb.
  - destruct e; simpl in *; try done.
    + intros [= <-]. done.
    + destruct (bool_decide (0 ≤ dt)) eqn:Hdt; simpl; [|done].
      apply bool_decide_eq_true in Hdt.
      unfold quietUntil. destruct (bool_decide (now w + dt ≤ autoSaveDue w)) eqn:Hq;
        simpl; [|done].
      apply bool_decide_eq_true in Hq.
      destruct (checkTimer w) as [d|] eqn:Ed.
      * destruct (bool_decide (now w + dt ≤ d)) eqn:Hq2; [|done].
        apply bool_decide_eq_true in Hq2. intros [= <-]. simpl. rewrite Ed.
        split; lia.
      * intros [= <-]. simpl. rewrite Ed. split; [lia | done].
    + destruct (checkTimer w) as [d|]; [|done]. case_decide; [|done].
      intros [= <-]. unfold checkWorkspace. simpl.
      by destruct (container _); [destruct (mainWorkspace _)|].
    + case_decide; [|done]. intros [= <-].
      set (w1 := set_autoSaveDue (now w + AUTO_SAVE_INTERVAL) w).
      destruct (runEffects_fields w1 (autoSaveTick w1)) as (_ & _ & Hk & _ & _ & ->).
      rewrite runEffects_autoSaveDue, runEffects_checkTimer.
      destruct (autoSaveTick_frame w1) as (Hk1 & _ & _ & -> & -> & ->).
      split; [case_decide; simpl; lia |].
      rewrite decide_True by congruence. exact Hc.
  - intros Hs.
    destruct (dispatch_toolbar e w w' Hb Hs) as (w1 & -> & _ & _ & Hn & Ht & Hd).
    destruct (runEffects_fields w w1) as (_ & _ & _ & _ & _ & ->).
    rewrite runEffects_autoSaveDue, runEffects_checkTimer, Hn, Ht, Hd.
    split; repeat case_decide; try done; lia.
Qed.

(** X8. On every page reached from its first render the timers are in
    range: the next auto-save is due now or later but at most 30000 ms
    away, and a pending check is due now or later but at most 500 ms
    away.  No callback and no re-arming pushes either further out. *)
Theorem timers_stay_in_range
    (ctx : Ctx) (b : BlocklyEnv) (t0 : Z) (es : list Event) (w' : World Ctx) :
  run es (mount ctx b t0) = Some w' → timersInRange w'.
Proof.
  assert (Hgen : ∀ es (w : World Ctx),
            timersInRange w → run es w = Some w' → timersInRange w').
  { clear es. induction es as [|e es IH]; intros w Hw; simpl.
    - by intros [= <-].
    - destruct (step e w) as [w1|] eqn:Es; [|done].
      apply IH. by apply (step_timersInRange e w). }
  apply Hgen. unfold timersInRange, mount, AUTO_SAVE_INTERVAL, CHECK_DELAY. simpl. lia.
Qed.

(** X9. The toolbar's save is not guarded by the active project, the
    auto-save tick is.  With no project active and a document to read,
    the save callback still calls saveProject with that document and the
    generated code, where a tick due at the same moment makes no call. *)
Theorem toolbar_save_needs_no_project (w : World Ctx) :
  currentProject (ide w) = None → documentRead w ≠ "" → autoSaveDue w = now w →
  (∃ w1, step ToolbarSave w = Some w1 ∧
         calls w1 = calls w ++ [CallSaveProject (documentRead w) (generatedCode (ide w))] ∧
         ide w1 = snd (saveProject (documentRead w) (generatedCode (ide w)) (ide w))) ∧
  (∃ w2, step FireAutoSave w = Some w2 ∧ calls w2 = calls w ∧ ide w2 = ide w).
Proof.
  intros Hn Hd Hdue. split.
  - simpl. unfold dispatch. eexists. split; [reflexivity |].
    destruct (runEffects_fields w (snd (handleSave w))) as (-> & -> & _).
    rewrite handleSave_cases, truthy_nonempty by done.
    by rewrite await_calls, await_ide.
  - simpl. rewrite decide_True by done. eexists. split; [reflexivity |].
    set (w1 := set_autoSaveDue (now w + AUTO_SAVE_INTERVAL) w).
    destruct (runEffects_fields w1 (autoSaveTick w1)) as (-> & -> & _).
    unfold autoSaveTick. simpl. by rewrite Hn.
Qed.

(** X10. With a project active, a due auto-save tick and the toolbar's
    save do the same thing to the context: the same calls, the same
    context state; they differ only in the timers. *)
Theorem tick_saves_like_toolbar (w w1 w2 : World Ctx) :
  is_Some (currentProject (ide w)) →
  step FireAutoSave w = Some w1 → step ToolbarSave w = Some w2 →
  ide w1 = ide w2 ∧ calls w1 = calls w2 ∧
  workspaceRef w1 = workspaceRef w2 ∧ blocklyKey w1 = blocklyKey w2 ∧
  now w1 = now w2.
Proof.
  intros [p Hp]. simpl. case_decide; [|done]. unfold dispatch.
  intros [= <-] [= <-].
  set (w0 := set_autoSaveDue (now w + AUTO_SAVE_INTERVAL) w).
  destruct (runEffects_fields w0 (autoSaveTick w0)) as (-> & -> & -> & -> & _ & ->).
  destruct (runEffects_fields w (snd (handleSave w))) as (-> & -> & -> & -> & _ & ->).
  unfold autoSaveTick. change (ide w0) with (ide w). rewrite Hp.
  rewrite !handleSave_cases.
  change (documentRead w0) with (documentRead w). change (ide w0) with (ide w).
  destruct (truthy (documentRead w)); [|done].
  unfold await. simpl.
  by destruct (saveProject _ _ (ide w)) as [[|e] ctx'].
Qed.

(** X11. A save made in the half second after a re-mount sends the old
    workspace's document.  After an event that changed the remount
    counter while the handle pointed at [ws], and any run that ends before
    the check is due: if [ws] still serializes to a non-empty text, the
    toolbar's save calls saveProject with that text, whichever workspace
    Blockly shows by then and whichever project is active. *)
Theorem save_after_remount_sends_old_document
    (e : Event) (es : list Event) (ws : WorkspaceSvg) (w w1 w2 : World Ctx) :
  workspaceRef w = Some ws →
  step e w = Some w1 → blocklyKey w1 ≠ blocklyKey w →
  run es w1 = Some w2 → now w2 < now w1 + CHECK_DELAY →
  workspaceText (blockly w2) ws ≠ "" →
  ∃ w3, step ToolbarSave w2 = Some w3 ∧
        calls w3 = calls w2 ++ [CallSaveProject (workspaceText (blockly w2) ws)
                                                (generatedCode (ide w2))] ∧
        ide w3 = snd (saveProject (workspaceText (blockly w2) ws)
                                  (generatedCode (ide w2)) (ide w2)).
Proof.
  intros Hws Hs Hk Hrun Hlt Hne.
  destruct (isBackground e) eqn:Hb.
  { by rewrite (background_keeps_key e w w1 Hb Hs) in Hk. }
  destruct (dispatch_toolbar e w w1 Hb Hs) as (wa & -> & Hr & _ & Hn & _).
  destruct (runEffects_fields w wa) as (_ & _ & Hkey & Href & _ & Hnow).
  assert (Ht : checkTimer (runEffects w wa) = Some (now (runEffects w wa) + CHECK_DELAY)).
  { rewrite runEffects_checkTimer, Hnow. rewrite Hkey in Hk.
    by rewrite decide_False by congruence. }
  assert (Hw2 : workspaceRef w2 = Some ws).
  { rewrite <- Hws, <- Hr, <- Href.
    apply (run_keeps_ref (now (runEffects w wa) + CHECK_DELAY) es); [lia | | done | done].
    intros d. rewrite Ht. intros [= <-]. lia. }
  assert (Hdoc : documentRead w2 = workspaceText (blockly w2) ws).
  { unfold documentRead. by rewrite Hw2. }
  simpl. unfold dispatch. eexists. split; [reflexivity |].
  destruct (runEffects_fields w2 (snd (handleSave w2))) as (-> & -> & _).
  rewrite handleSave_cases, Hdoc, truthy_nonempty by done.
  by rewrite await_calls, await_ide.
Qed.

(** While the interval is due at [T] or later and a re-arming would put it
    there too, one step keeps it so. *)
Lemma step_due_not_before (T : Z) (e : Event) (w w' : World Ctx) :
  T ≤ autoSaveDue w → T ≤ now w + AUTO_SAVE_INTERVAL →
  step e w = Some w' →
  T ≤ autoSaveDue w' ∧ T ≤ now w' + AUTO_SAVE_INTERVAL.
Proof.
  intros Hd HT Hs. pose proof (step_now_mono e w w' Hs) as Hm.
  split; [| lia].
  destruct (isBackground e) eqn:Hb.
  - destruct e; simpl in *; try done.
    + by injection Hs as <-.
    + destruct (_ && _); [|done]. by injection Hs as <-.
    + destruct (checkTimer w); [|done]. case_decide; [|done]. injection Hs as <-.
      unfold checkWorkspace. simpl.
      by destruct (container _); [destruct (mainWorkspace _)|].
    + case_decide; [|done]. injection Hs as <-.
      set (w1 := set_autoSaveDue (now w + AUTO_SAVE_INTERVAL) w) in *.
      rewrite runEffects_autoSaveDue.
      destruct (autoSaveTick_frame w1) as (_ & _ & _ & -> & _ & ->).
      case_decide; simpl; lia.
  - destruct (dispatch_toolbar e w w' Hb Hs) as (w1 & -> & _ & _ & Hn & _ & Hdue).
    rewrite runEffects_autoSaveDue, Hn, Hdue. case_decide; lia.
Qed.

Lemma run_due_not_before (T : Z) (es : list Event) (w w' : World Ctx) :
  T ≤ autoSaveDue w → T ≤ now w + AUTO_SAVE_INTERVAL →
  run es w = Some w' → T ≤ autoSaveDue w'.
Proof.
  revert w. induction es as [|e es IH]; intros w Hd HT; simpl.
  - by intros [= <-].
  - destruct (step e w) as [w1|] eqn:Es; [|done].
    destruct (step_due_not_before T e w w1 Hd HT Es) as [Hd1 HT1].
    by apply IH.
Qed.

(** X12. Auto-save never runs more often than once per interval: after
    a tick, whatever happens on the page, the next tick can fire only
    when at least 30000 ms have passed since the last one. *)
Theorem ticks_are_an_interval_apart (es : list Event) (w w1 w2 w3 : World Ctx) :
  step FireAutoSave w = Some w1 → run es w1 = Some w2 →
  step FireAutoSave w2 = Some w3 →
  now w + AUTO_SAVE_INTERVAL ≤ now w2.
Proof.
  intros Hs Hr Hs2.
  assert (Hn : now w1 = now w ∧ autoSaveDue w1 = now w + AUTO_SAVE_INTERVAL).
  { simpl in Hs. case_decide; [|done]. injection Hs as <-.
    set (w0 := set_autoSaveDue (now w + AUTO_SAVE_INTERVAL) w).
    destruct (runEffects_fields w0 (autoSaveTick w0)) as (_ & _ & _ & _ & _ & ->).
    rewrite runEffects_autoSaveDue.
    destruct (autoSaveTick_frame w0) as (_ & _ & _ & -> & _ & ->).
    split; [done | by case_decide]. }
  destruct Hn as [Hn Hd].
  pose proof (run_due_not_before (now w + AUTO_SAVE_INTERVAL) es w1 w2) as Hlow.
  simpl in Hs2. case_decide as Hdue; [|done].
  rewrite <- Hdue. apply Hlow; [lia | lia | done].
Qed.

(** X13. The first auto-save of a page comes no sooner than 30000 ms
    after its first render, whatever the user does in between. *)
Theorem first_tick_after_an_interval
    (ctx : Ctx) (b : BlocklyEnv) (t0 : Z) (es : list Event) (w w' : World Ctx) :
  run es (mount ctx b t0) = Some w → step FireAutoSave w = Some w' →
  t0 + AUTO_SAVE_INTERVAL ≤ now w.
Proof.
  intros Hr Hs. simpl in Hs. case_decide as Hdue; [|done].
  rewrite <- Hdue.
  apply (run_due_not_before (t0 + AUTO_SAVE_INTERVAL) es (mount ctx b t0)); simpl;
    [lia | lia | done].
Qed.

End RunFacts.

(** ** Scenarios of the runs *)

Module RunScenarios.
Import Orchestrator Samples Sessions.

(** Name the world an evaluation ends in, and keep the equation. *)
Ltac exists_result t H :=
  let v := eval vm_compute in t in
  match v with
  | Some ?x => exists x; assert (H : t = Some x) by (vm_compute; reflexivity)
  end.

Lemma no_handle_no_saveProject_witness :
  workspaceRef stalled = None ∧
  step FireAutoSave stalled = Some (set_autoSaveDue 60500 stalled) ∧
  ∃ l, calls (set_autoSaveDue 60500 stalled) = calls stalled ++ l ∧
       forallb (λ c, negb (isSaveProjectCall c)) l = true.
Proof.
  assert (H1 : workspaceRef stalled = None) by reflexivity.
  assert (H2 : step FireAutoSave stalled = Some (set_autoSaveDue 60500 stalled))
    by reflexivity.
  split; [exact H1 |]. split; [exact H2 |].
  exact (no_handle_no_saveProject FireAutoSave stalled _ H1 H2).
Defined.

Lemma handle_never_cleared_witness :
  is_Some (workspaceRef noProject) ∧
  ∃ w', run browsing noProject = Some w' ∧
        blocklyKey w' = 2 ∧
        is_Some (workspaceRef w').
Proof.
  assert (H1 : is_Some (workspaceRef noProject)) by (by eexists).
  split; [exact H1 |].
  exists_result (run browsing noProject) H2.
  split; [exact H2 |]. split; [reflexivity |].
  exact (handle_never_cleared browsing noProject _ H1 H2).
Defined.

Lemma blocklyKey_counts_remounts_witness :
  ∃ w', run browsing noProject = Some w' ∧
        countRemounts browsing = 3 ∧
        blocklyKey noProject ≤ blocklyKey w' ≤ blocklyKey noProject + countRemounts browsing.
Proof.
  exists_result (run browsing noProject) H1.
  split; [exact H1 |]. split; [reflexivity |].
  exact (blocklyKey_counts_remounts browsing noProject _ H1).
Defined.

Lemma late_editor_is_never_saved_witness :
  workspaceRef stalled = None ∧ checkTimer stalled = None ∧
  forallb (λ e, negb (isRemount e)) lateMount = true ∧
  ∃ w', run lateMount stalled = Some w' ∧
        now w' = 90500 ∧
        mainWorkspace (blockly w') = Some 1%nat ∧
        workspaceRef w' = None ∧ checkTimer w' = None ∧
        ∃ l, calls w' = calls stalled ++ l ∧
             forallb (λ c, negb (isSaveProjectCall c)) l = true.
Proof.
  assert (H1 : workspaceRef stalled = None) by reflexivity.
  assert (H2 : checkTimer stalled = None) by reflexivity.
  assert (H3 : forallb (λ e, negb (isRemount e)) lateMount = true) by reflexivity.
  split; [exact H1 |]. split; [exact H2 |]. split; [exact H3 |].
  exists_result (run lateMount stalled) H4.
  split; [exact H4 |]. split; [reflexivity |]. split; [reflexivity |].
  exact (late_editor_is_never_saved lateMount stalled _ H1 H2 H3 H4).
Defined.

Lemma first_half_second_saves_nothing_witness :
  ∃ w', run eagerUser (mount idle noSurface 0) = Some w' ∧
        now w' < 0 + CHECK_DELAY ∧
        mainWorkspace (blockly w') = Some 1%nat ∧
        is_Some (currentProject (ide w')) ∧
        workspaceRef w' = None ∧
        forallb (λ c, negb (isSaveProjectCall c)) (calls w') = true.
Proof.
  exists_result (run eagerUser (mount idle noSurface 0)) H1.
  split; [exact H1 |].
  match goal with
  | |- ?A ∧ _ => assert (H2 : A) by reflexivity
  end.
  split; [exact H2 |]. split; [reflexivity |]. split; [by eexists |].
  exact (first_half_second_saves_nothing idle noSurface 0 eagerUser _ H1 H2).
Defined.

Lemma timers_stay_in_range_witness :
  run stalledTrace (mount idle noSurface 0) = Some stalled ∧
  timersInRange stalled.
Proof.
  assert (H1 : run stalledTrace (mount idle noSurface 0) = Some stalled) by reflexivity.
  split; [exact H1 |].
  exact (timers_stay_in_range idle noSurface 0 stalledTrace stalled H1).
Defined.

Lemma toolbar_save_needs_no_project_witness :
  currentProject (ide noProject) = None ∧
  documentRead noProject ≠ "" ∧
  autoSaveDue noProject = now noProject ∧
  (∃ w1, step ToolbarSave noProject = Some w1 ∧
         calls w1 = [CallSaveProject "<xml><block type='led'/></xml>" "void loop(){}"]) ∧
  (∃ w2, step FireAutoSave noProject = Some w2 ∧ calls w2 = []).
Proof.
  assert (H1 : currentProject (ide noProject) = None) by reflexivity.
  assert (H2 : documentRead noProject ≠ "") by (vm_compute; discriminate).
  assert (H3 : autoSaveDue noProject = now noProject) by reflexivity.
  split; [exact H1 |]. split; [exact H2 |]. split; [exact H3 |].
  destruct (toolbar_save_needs_no_project noProject H1 H2 H3)
    as [(w1 & Hs1 & Hc1 & _) (w2 & Hs2 & Hc2 & _)].
  split; [exists w1 | exists w2]; (split; [assumption |]); assumption.
Defined.

Lemma tick_saves_like_toolbar_witness :
  is_Some (currentProject (ide mounted)) ∧
  ∃ w1 w2, step FireAutoSave mounted = Some w1 ∧
           step ToolbarSave mounted = Some w2 ∧
           autoSaveDue w1 = 60000 ∧ autoSaveDue w2 = 30000 ∧
           ide w1 = ide w2 ∧ calls w1 = calls w2.
Proof.
  assert (H1 : is_Some (currentProject (ide mounted))) by (by eexists).
  split; [exact H1 |].
  exists_result (step FireAutoSave mounted) H2.
  exists_result (step ToolbarSave mounted) H3.
  split; [exact H2 |]. split; [exact H3 |].
  split; [reflexivity |]. split; [reflexivity |].
  refine (let Ht := tick_saves_like_toolbar mounted _ _ H1 H2 H3
          in conj (proj1 Ht) (proj1 (proj2 Ht))).
Defined.

Lemma save_after_remount_sends_old_document_witness :
  workspaceRef noProject = Some 1%nat ∧
  step (ToolbarOpenProject "p") noProject = Some opened ∧
  blocklyKey opened ≠ blocklyKey noProject ∧
  ∃ w2, run staleWindow opened = Some w2 ∧
        now w2 < now opened + CHECK_DELAY ∧
        mainWorkspace (blockly w2) = Some 2%nat ∧
        workspaceText (blockly w2) 1%nat ≠ "" ∧
        ∃ w3, step ToolbarSave w2 = Some w3 ∧
              calls w3 = calls w2 ++ [CallSaveProject "<xml></xml>" "void loop(){}"].
Proof.
  assert (H1 : workspaceRef noProject = Some 1%nat) by reflexivity.
  assert (H2 : step (ToolbarOpenProject "p") noProject = Some opened) by reflexivity.
  assert (H3 : blocklyKey opened ≠ blocklyKey noProject) by (vm_compute; discriminate).
  split; [exact H1 |]. split; [exact H2 |]. split; [exact H3 |].
  exists_result (run staleWindow opened) H4.
  split; [exact H4 |].
  match goal with
  | |- ?A ∧ _ => assert (H5 : A) by reflexivity
  end.
  split; [exact H5 |]. split; [reflexivity |].
  assert (H6 : workspaceText surface2 1%nat ≠ "") by (vm_compute; discriminate).
  split; [exact H6 |].
  destruct (save_after_remount_sends_old_document
              (ToolbarOpenProject "p") staleWindow 1%nat noProject opened _
              H1 H2 H3 H4 H5 H6) as (w3 & Hs & Hc & _).
  exists w3. split; [exact Hs | exact Hc].
Defined.

Lemma ticks_are_an_interval_apart_witness :
  ∃ w1 w2 w3,
    step FireAutoSave mounted = Some w1 ∧
    run [ToolbarSave; Delay 10000; ToolbarNewProject "Servo"; Delay 30000] w1 = Some w2 ∧
    step FireAutoSave w2 = Some w3 ∧
    now w2 = 70000 ∧
    now mounted + AUTO_SAVE_INTERVAL ≤ now w2.
Proof.
  exists_result (step FireAutoSave mounted) H1.
  match goal with
  | |- ∃ w2 w3, _ ∧ run ?es ?x = _ ∧ _ => exists_result (run es x) H2
  end.
  match goal with
  | |- ∃ w3, _ ∧ _ ∧ step FireAutoSave ?y = _ ∧ _ =>
      exists_result (step FireAutoSave y) H3
  end.
  split; [exact H1 |]. split; [exact H2 |]. split; [exact H3 |].
  split; [reflexivity |].
  exact (ticks_are_an_interval_apart _ _ _ _ _ H1 H2 H3).
Defined.

Lemma first_tick_after_an_interval_witness :
  run stalledTrace (mount idle noSurface 0) = Some stalled ∧
  step FireAutoSave stalled = Some (set_autoSaveDue 60500 stalled) ∧
  0 + AUTO_SAVE_INTERVAL ≤ now stalled.
Proof.
  assert (H1 : run stalledTrace (mount idle noSurface 0) = Some stalled) by reflexivity.
  assert (H2 : step FireAutoSave stalled = Some (set_autoSaveDue 60500 stalled))
    by reflexivity.
  split; [exact H1 |]. split; [exact H2 |].
  exact (first_tick_after_an_interval idle noSurface 0 stalledTrace stalled _ H1 H2).
Defined.

(** The same half second over the session orchestrator: the record of the
    project just opened is overwritten with the document of the workspace
    the handle still points at. *)
Example stale_save_overwrites_opened_project :
  ∃ w, run (staleWindow ++ [ToolbarSave]) opened = Some w ∧
       activeId w = Some "p" ∧
       workspaceDocument <$> ProjectStore.fetch "p" (store (ide opened)) =
         Some "<xml><block type='led'/></xml>" ∧
       workspaceDocument <$> ProjectStore.fetch "p" (store (ide w)) =
         Some "<xml></xml>".
Proof. eexists. repeat split; reflexivity. Qed.

End RunScenarios.
